(** * Predictive-maintenance pipeline: the synthetic data generator and the
      real-time inference handler, embedded from the Python sources

    - [src/realtime_inference.py]: [build_features], [on_message] and the
      library operations they call ([bytes.decode], [json.loads], [float],
      [int], the [.2f] format); then [load_model], [on_connect],
      [create_mqtt_client] and the program's [main] (named [inference_main]
      here, the generator having a [main] of its own), over an explicit
      file system, network and broker.
    - [src/generate_historical_data.py]: [main], over an explicit random
      generator and an explicit clock.

    Python floats are IEEE 754 binary64 values: they are modelled with the
    executable specification [spec_float] of the Standard Library, at
    precision 53 and maximal exponent 1024.  Python strings are modelled by
    their UTF-8 encoding, one [ascii] per byte. *)

From Stdlib Require Import ZArith String Ascii List DecimalString.
From Stdlib Require Import Floats.SpecFloat.
From stdpp Require Import gmap strings list.

Local Open Scope Z_scope.

(** ** Exceptions and results *)

(** The exception classes the two programs can meet.  All of them derive
    from [Exception]; asynchronous [BaseException]s (a keyboard interrupt)
    are not part of the model. *)
Inductive exn : Type :=
  | KeyError
  | TypeError
  | ValueError
  | UnicodeDecodeError   (* subclass of ValueError *)
  | JSONDecodeError      (* subclass of ValueError *)
  | UnicodeEncodeError   (* subclass of ValueError *)
  | OverflowError        (* subclass of ArithmeticError *)
  | IndexError           (* subclass of LookupError *)
  | OtherError (name : string).

(** [except (KeyError, TypeError, ValueError)]: the classes of the tuple and
    their subclasses. *)
Definition is_key_type_value_error (e : exn) : bool :=
  match e with
  | KeyError | TypeError | ValueError | UnicodeDecodeError | JSONDecodeError
  | UnicodeEncodeError => true
  | OverflowError | IndexError | OtherError _ => false
  end.

Inductive result (A : Type) : Type :=
  | Ok (a : A)
  | Raise (e : exn).
Arguments Ok {A} a.
Arguments Raise {A} e.

Global Instance result_ret : MRet result := fun _ a => Ok a.

Global Instance result_bind : MBind result := fun _ _ k r =>
  match r with
  | Ok a => k a
  | Raise e => Raise e
  end.

Global Instance result_fmap : FMap result := fun _ _ f r =>
  match r with
  | Ok a => Ok (f a)
  | Raise e => Raise e
  end.

(** ** Python floats *)

Module PyFloat.

Definition prec : Z := 53.
Definition emax : Z := 1024.

Definition float : Type := spec_float.

Definition ltb (x y : float) : bool := SFltb x y.
Definition leb (x y : float) : bool := SFleb x y.
Definition mul (x y : float) : float := SFmul prec emax x y.

Definition is_nan (x : float) : bool :=
  match x with S754_nan => true | _ => false end.

Definition is_finite (x : float) : bool :=
  match x with S754_zero _ | S754_finite _ _ _ => true | _ => false end.

(** The binary64 value nearest to an integer (ties to even); an infinity
    when the integer is out of range. *)
Definition round_of_Z (z : Z) : float := binary_normalize prec emax z 0 false.

(** [float(n)] for a Python [int]. *)
Definition of_int (z : Z) : result float :=
  match round_of_Z z with
  | S754_infinity _ => Raise OverflowError
  | f => Ok f
  end.

(** The binary64 value nearest to [(-1)^neg * m * 10^e10], for [0 <= m]:
    what the decimal-to-binary conversion of a literal or of [float(str)]
    returns. *)
Definition of_decimal (neg : bool) (m : Z) (e10 : Z) : float :=
  match m with
  | Z0 => S754_zero neg
  | Zpos _ =>
      if 0 <=? e10 then
        binary_normalize prec emax (cond_Zopp neg (m * 10 ^ e10)) 0 neg
      else
        let '(q, e, l) := SFdiv_core_binary prec emax m 0 (10 ^ (- e10)) 0 in
        binary_round_aux prec emax neg q e l
  | Zneg _ => S754_nan
  end.

(** [int(x)] for a float: truncation toward zero. *)
Definition to_int (x : float) : result Z :=
  match x with
  | S754_nan => Raise ValueError
  | S754_infinity _ => Raise OverflowError
  | S754_zero _ => Ok 0
  | S754_finite s m e => Ok (cond_Zopp s (Z.shiftl (Zpos m) e))
  end.

(** Nearest integer to [num / den] for [0 <= num], [0 < den], ties to even. *)
Definition div_half_even (num den : Z) : Z :=
  let q := num / den in
  match (2 * (num mod den)) ?= den with
  | Lt => q
  | Gt => q + 1
  | Eq => if Z.even q then q else q + 1
  end.

(** Nearest integer to [m * 2^e], ties to even. *)
Definition nearest (m : Z) (e : Z) : Z :=
  if 0 <=? e then m * 2 ^ e else div_half_even m (2 ^ (- e)).

(** [round(x)] with one argument. *)
Definition round (x : float) : result Z :=
  match x with
  | S754_nan => Raise ValueError
  | S754_infinity _ => Raise OverflowError
  | S754_zero _ => Ok 0
  | S754_finite s m e => Ok (cond_Zopp s (nearest (Zpos m) e))
  end.

Definition digit_char (d : Z) : ascii := ascii_of_N (48 + Z.to_N d).

Definition decimal_of_Z (n : Z) : string :=
  NilZero.string_of_uint (N.to_uint (Z.to_N n)).

Definition sign_str (s : bool) : string := if s then "-"%string else ""%string.

(** [format(x, ".2f")]: the exact value of [x] rounded to two decimals,
    ties to even. *)
Definition format_2f (x : float) : string :=
  match x with
  | S754_nan => "nan"
  | S754_infinity s => sign_str s ++ "inf"
  | S754_zero s => sign_str s ++ "0.00"
  | S754_finite s m e =>
      let n := nearest (Zpos m * 100) e in
      sign_str s ++ decimal_of_Z (n / 100) ++ "."
        ++ String (digit_char (n mod 100 / 10))
             (String (digit_char (n mod 10)) EmptyString)
  end%string.

End PyFloat.

(** ** Bytes and strings *)

Definition bytes : Type := list Byte.byte.

Definition dquote : ascii := Eval cbv in ascii_of_N 34.
Definition backslash : ascii := Eval cbv in ascii_of_N 92.

Definition chr (n : N) : ascii := ascii_of_N n.
Definition ord (c : ascii) : N := N_of_ascii c.

Definition in_range (lo hi x : N) : bool := ((lo <=? x) && (x <=? hi))%N.

(** Well-formed UTF-8, as the strict decoder of [bytes.decode("utf-8")]
    accepts it: no stray continuation byte, no overlong form, no surrogate,
    nothing above U+10FFFF. *)
Fixpoint utf8_ok (l : list N) : bool :=
  match l with
  | [] => true
  | b0 :: r0 =>
      if (b0 <? 128)%N then utf8_ok r0
      else if in_range 194 223 b0 then
        match r0 with
        | b1 :: r1 => in_range 128 191 b1 && utf8_ok r1
        | _ => false
        end
      else if in_range 224 239 b0 then
        match r0 with
        | b1 :: b2 :: r2 =>
            in_range (if (b0 =? 224)%N then 160 else 128)
                     (if (b0 =? 237)%N then 159 else 191) b1
            && in_range 128 191 b2 && utf8_ok r2
        | _ => false
        end
      else if in_range 240 244 b0 then
        match r0 with
        | b1 :: b2 :: b3 :: r3 =>
            in_range (if (b0 =? 240)%N then 144 else 128)
                     (if (b0 =? 244)%N then 143 else 191) b1
            && in_range 128 191 b2 && in_range 128 191 b3 && utf8_ok r3
        | _ => false
        end
      else false
  end.

(** [payload.decode("utf-8")] *)
Definition bytes_decode_utf8 (b : bytes) : result string :=
  if utf8_ok (map Byte.to_N b) then Ok (string_of_list_byte b)
  else Raise UnicodeDecodeError.

(** The UTF-8 form of a code point; a lone surrogate, which a JSON escape can
    produce, takes the three-byte form no decoded text can contain. *)
Definition utf8_encode (cp : N) : string :=
  (if cp <? 128 then String (chr cp) EmptyString
   else if cp <? 2048 then
     String (chr (192 + cp / 64)) (String (chr (128 + cp mod 64)) EmptyString)
   else if cp <? 65536 then
     String (chr (224 + cp / 4096))
       (String (chr (128 + (cp / 64) mod 64))
          (String (chr (128 + cp mod 64)) EmptyString))
   else
     String (chr (240 + cp / 262144))
       (String (chr (128 + (cp / 4096) mod 64))
          (String (chr (128 + (cp / 64) mod 64))
             (String (chr (128 + cp mod 64)) EmptyString))))%N.

Definition is_digit (c : ascii) : bool := in_range 48 57 (ord c).

Definition digit_val (c : ascii) : Z := Z.of_N (ord c) - 48.

(** The longest prefix of ASCII digits, and what follows it. *)
Fixpoint take_digits (s : string) : string * string :=
  match s with
  | String c r =>
      if is_digit c then let '(d, r') := take_digits r in (String c d, r')
      else (EmptyString, s)
  | EmptyString => (EmptyString, EmptyString)
  end.

Fixpoint Z_of_digits_acc (acc : Z) (s : string) : Z :=
  match s with
  | String c r => Z_of_digits_acc (10 * acc + digit_val c) r
  | EmptyString => acc
  end.

Definition Z_of_digits (s : string) : Z := Z_of_digits_acc 0 s.

Definition strlen (s : string) : Z := Z.of_nat (String.length s).

(** The default limit of CPython on the digits of a decimal [int(str)]. *)
Definition int_max_str_digits : Z := 4300.

(** ** The objects [json.loads] returns *)

#[warnings="-register-all"]
Inductive json : Type :=
  | JNone
  | JBool (b : bool)
  | JInt (n : Z)
  | JFloat (x : PyFloat.float)
  | JStr (s : string)
  | JList (l : list json)
  | JDict (d : list (string * json)).

(** A [dict] keeps its entries in insertion order, one per key: [d[k] = v]
    overwrites in place or appends. *)
Fixpoint dict_set {V : Type} (k : string) (v : V) (d : list (string * V))
  : list (string * V) :=
  match d with
  | [] => [(k, v)]
  | (k', v') :: r =>
      if String.eqb k k' then (k, v) :: r else (k', v') :: dict_set k v r
  end.

Fixpoint dict_get {V : Type} (k : string) (d : list (string * V)) : option V :=
  match d with
  | [] => None
  | (k', v') :: r => if String.eqb k k' then Some v' else dict_get k r
  end.

(** ** [json.loads] *)

Module Json.

Definition is_ws (c : ascii) : bool :=
  match ord c with
  | 32 | 9 | 10 | 13 => true
  | _ => false
  end%N.

Fixpoint skip_ws (s : string) : string :=
  match s with
  | String c r => if is_ws c then skip_ws r else s
  | EmptyString => s
  end.

Definition hex_val (c : ascii) : option N :=
  let n := ord c in
  (if in_range 48 57 n then Some (n - 48)
   else if in_range 97 102 n then Some (n - 87)
   else if in_range 65 70 n then Some (n - 55)
   else None)%N.

Definition hex4 (s : string) : option (N * string) :=
  match s with
  | String a (String b (String c (String d r))) =>
      match hex_val a, hex_val b, hex_val c, hex_val d with
      | Some x, Some y, Some z, Some w =>
          Some (4096 * x + 256 * y + 16 * z + w, r)%N
      | _, _, _, _ => None
      end
  | _ => None
  end.

(** A high surrogate followed by an escaped low surrogate is one code
    point; otherwise it stays alone. *)
Definition join_surrogates (cp : N) (s : string) : N * string :=
  if in_range 0xD800 0xDBFF cp then
    match s with
    | String b (String u r) =>
        if Ascii.eqb b backslash && Ascii.eqb u "u" then
          match hex4 r with
          | Some (c2, r') =>
              if in_range 0xDC00 0xDFFF c2
              then (0x10000 + (cp - 0xD800) * 1024 + (c2 - 0xDC00), r')%N
              else (cp, s)
          | None => (cp, s)
          end
        else (cp, s)
    | _ => (cp, s)
    end
  else (cp, s).

Definition unescape (c : ascii) : option ascii :=
  if Ascii.eqb c dquote then Some dquote
  else if Ascii.eqb c backslash then Some backslash
  else if Ascii.eqb c "/" then Some "/"%char
  else if Ascii.eqb c "b" then Some (chr 8)
  else if Ascii.eqb c "f" then Some (chr 12)
  else if Ascii.eqb c "n" then Some (chr 10)
  else if Ascii.eqb c "r" then Some (chr 13)
  else if Ascii.eqb c "t" then Some (chr 9)
  else None.

(** The text of a string literal, read from just after its opening quote
    (strict mode: no raw control character). *)
Fixpoint scan_string (fuel : nat) (acc : string) (s : string)
  : result (string * string) :=
  match fuel, s with
  | S f, String c r =>
      if Ascii.eqb c dquote then Ok (acc, r)
      else if Ascii.eqb c backslash then
        match r with
        | String e r1 =>
            if Ascii.eqb e "u" then
              match hex4 r1 with
              | Some (cp, r2) =>
                  let '(cp', r3) := join_surrogates cp r2 in
                  scan_string f (acc ++ utf8_encode cp') r3
              | None => Raise JSONDecodeError
              end
            else
              match unescape e with
              | Some c' => scan_string f (acc ++ String c' EmptyString) r1
              | None => Raise JSONDecodeError
              end
        | EmptyString => Raise JSONDecodeError
        end
      else if (ord c <? 32)%N then Raise JSONDecodeError
      else scan_string f (acc ++ String c EmptyString) r
  | _, _ => Raise JSONDecodeError
  end%string.

Definition strip_minus (s : string) : bool * string :=
  match s with
  | String c r => if Ascii.eqb c "-" then (true, r) else (false, s)
  | EmptyString => (false, s)
  end.

(** A fraction (a dot and at least one digit), when it is there. *)
Definition scan_frac (s : string) : option string * string :=
  match s with
  | String c r =>
      if Ascii.eqb c "." then
        let '(d, r') := take_digits r in
        match d with
        | EmptyString => (None, s)
        | _ => (Some d, r')
        end
      else (None, s)
  | EmptyString => (None, s)
  end.

(** An exponent (e or E, an optional sign, at least one digit), when it is
    there. *)
Definition scan_exp (s : string) : option Z * string :=
  match s with
  | String c r =>
      if Ascii.eqb c "e" || Ascii.eqb c "E" then
        let '(eneg, r1) :=
          match r with
          | String g r' =>
              if Ascii.eqb g "-" then (true, r')
              else if Ascii.eqb g "+" then (false, r')
              else (false, r)
          | EmptyString => (false, r)
          end in
        let '(d, r2) := take_digits r1 in
        match d with
        | EmptyString => (None, s)
        | _ => (Some (cond_Zopp eneg (Z_of_digits d)), r2)
        end
      else (None, s)
  | EmptyString => (None, s)
  end.

(** A number: an optional minus, then a single zero or a nonzero digit
    followed by digits, then an optional fraction and an optional
    exponent.  It is an [int] when there is neither fraction nor exponent,
    a [float] otherwise.  [None] when no number starts here. *)
Definition scan_number (s : string) : option (result json * string) :=
  let '(neg, s1) := strip_minus s in
  let int_part :=
    match s1 with
    | String c r =>
        if Ascii.eqb c "0" then Some (String c EmptyString, r)
        else if is_digit c then Some (take_digits s1)
        else None
    | EmptyString => None
    end in
  match int_part with
  | None => None
  | Some (ip, s2) =>
      let '(frac, s3) := scan_frac s2 in
      let '(ex, s4) := scan_exp s3 in
      match frac, ex with
      | None, None =>
          Some (if int_max_str_digits <? strlen ip then Raise ValueError
                else Ok (JInt (cond_Zopp neg (Z_of_digits ip))), s4)
      | _, _ =>
          let fd := default EmptyString frac in
          Some (Ok (JFloat (PyFloat.of_decimal neg (Z_of_digits (String.append ip fd))
                              (default 0 ex - strlen fd))), s4)
      end
  end.

Fixpoint strip_prefix (p s : string) : option string :=
  match p, s with
  | EmptyString, _ => Some s
  | String a p', String b s' => if Ascii.eqb a b then strip_prefix p' s' else None
  | String _ _, EmptyString => None
  end.

Section Containers.
Variable scan : string -> result (json * string).

(** The elements of an array, read at the first of them. *)
Fixpoint scan_elements (fuel : nat) (acc : list json) (s : string)
  : result (list json * string) :=
  match fuel with
  | O => Raise JSONDecodeError
  | S f =>
      '(v, r) ← scan s;
      match skip_ws r with
      | String c r' =>
          if Ascii.eqb c "]" then Ok (acc ++ [v], r')
          else if Ascii.eqb c "," then scan_elements f (acc ++ [v]) (skip_ws r')
          else Raise JSONDecodeError
      | EmptyString => Raise JSONDecodeError
      end
  end.

Definition scan_array (s : string) : result (json * string) :=
  match skip_ws s with
  | String c r =>
      if Ascii.eqb c "]" then Ok (JList [], r)
      else '(l, r') ← scan_elements (String.length s) [] (String c r);
           Ok (JList l, r')
  | EmptyString => Raise JSONDecodeError
  end.

(** The members of an object, read at the quote of the first key. *)
Fixpoint scan_members (fuel : nat) (acc : list (string * json)) (s : string)
  : result (list (string * json) * string) :=
  match fuel, s with
  | S f, String q r0 =>
      if Ascii.eqb q dquote then
        '(k, r1) ← scan_string (String.length r0) EmptyString r0;
        match skip_ws r1 with
        | String c r2 =>
            if Ascii.eqb c ":" then
              '(v, r3) ← scan (skip_ws r2);
              match skip_ws r3 with
              | String c' r4 =>
                  if Ascii.eqb c' "}" then Ok (dict_set k v acc, r4)
                  else if Ascii.eqb c' ","
                  then scan_members f (dict_set k v acc) (skip_ws r4)
                  else Raise JSONDecodeError
              | EmptyString => Raise JSONDecodeError
              end
            else Raise JSONDecodeError
        | EmptyString => Raise JSONDecodeError
        end
      else Raise JSONDecodeError
  | _, _ => Raise JSONDecodeError
  end.

Definition scan_object (s : string) : result (json * string) :=
  match skip_ws s with
  | String c r =>
      if Ascii.eqb c "}" then Ok (JDict [], r)
      else '(d, r') ← scan_members (String.length s) [] (String c r);
           Ok (JDict d, r')
  | EmptyString => Raise JSONDecodeError
  end.
End Containers.

Definition scan_constant (s : string) : option (json * string) :=
  match strip_prefix "null" s with Some r => Some (JNone, r) | None =>
  match strip_prefix "true" s with Some r => Some (JBool true, r) | None =>
  match strip_prefix "false" s with Some r => Some (JBool false, r) | None =>
  match strip_prefix "NaN" s with Some r => Some (JFloat S754_nan, r) | None =>
  match strip_prefix "Infinity" s with
  | Some r => Some (JFloat (S754_infinity false), r) | None =>
  match strip_prefix "-Infinity" s with
  | Some r => Some (JFloat (S754_infinity true), r) | None => None
  end end end end end end.

(** One JSON value at the head of [s], and what follows it. *)
Fixpoint scan_once (fuel : nat) (s : string) : result (json * string) :=
  match fuel, s with
  | S f, String c r =>
      if Ascii.eqb c dquote then
        '(t, r') ← scan_string (String.length r) EmptyString r; Ok (JStr t, r')
      else if Ascii.eqb c "{" then scan_object (scan_once f) r
      else if Ascii.eqb c "[" then scan_array (scan_once f) r
      else
        match scan_constant s with
        | Some vr => Ok vr
        | None =>
            match scan_number s with
            | Some (v, r') => x ← v; Ok (x, r')
            | None => Raise JSONDecodeError
            end
        end
  | _, _ => Raise JSONDecodeError
  end.

Definition bom : string :=
  Eval cbv in String (chr 239) (String (chr 187) (String (chr 191) EmptyString)).

(** [json.loads(s)] for a [str]: one value between optional whitespace,
    nothing after it.  The nesting depth is bounded by the length of the
    text, so the fuel never runs out; the interpreter's own recursion
    limit is not modelled. *)
Definition loads (s : string) : result json :=
  match strip_prefix bom s with
  | Some _ => Raise JSONDecodeError
  | None =>
      let s0 := skip_ws s in
      '(v, r) ← scan_once (S (String.length s0)) s0;
      match skip_ws r with
      | EmptyString => Ok v
      | String _ _ => Raise JSONDecodeError
      end
  end.

End Json.

(** ** [float(x)] and [int(x)] *)

(** The code points of a text kept as UTF-8 (a lone surrogate in its
    three-byte form). *)
Fixpoint code_points (s : string) : list N :=
  match s with
  | EmptyString => []
  | String c0 r0 =>
      let b0 := ord c0 in
      if (b0 <? 128)%N then b0 :: code_points r0
      else if (b0 <? 224)%N then
        match r0 with
        | String c1 r1 => ((b0 - 192) * 64 + (ord c1 - 128))%N :: code_points r1
        | EmptyString => [b0]
        end
      else if (b0 <? 240)%N then
        match r0 with
        | String c1 (String c2 r2) =>
            ((b0 - 224) * 4096 + (ord c1 - 128) * 64 + (ord c2 - 128))%N
              :: code_points r2
        | _ => [b0]
        end
      else
        match r0 with
        | String c1 (String c2 (String c3 r3)) =>
            ((b0 - 240) * 262144 + (ord c1 - 128) * 4096
             + (ord c2 - 128) * 64 + (ord c3 - 128))%N :: code_points r3
        | _ => [b0]
        end
  end.

(** The white space outside ASCII ([str.isspace]). *)
Definition is_unicode_space (cp : N) : bool :=
  ((cp =? 133) || (cp =? 160) || (cp =? 5760) || in_range 8192 8202 cp
   || (cp =? 8232) || (cp =? 8233) || (cp =? 8239) || (cp =? 8287)
   || (cp =? 12288))%N.

(** The zero of each run of ten decimal digits (Unicode 14.0, the table of
    CPython 3.11): ASCII, Arabic-Indic, Devanagari, fullwidth and so on. *)
Definition digit_zeros : list N :=
  [ 48; 1632; 1776; 1984; 2406; 2534; 2662; 2790;
    2918; 3046; 3174; 3302; 3430; 3558; 3664; 3792;
    3872; 4160; 4240; 6112; 6160; 6470; 6608; 6784;
    6800; 6992; 7088; 7232; 7248; 42528; 43216; 43264;
    43472; 43504; 43600; 44016; 65296; 66720; 68912; 69734;
    69872; 69942; 70096; 70384; 70736; 70864; 71248; 71360;
    71472; 71904; 72016; 72784; 73040; 73120; 92768; 92864;
    93008; 120782; 120792; 120802; 120812; 120822; 123200; 123632;
    125264; 130032 ]%N.

(** The value of a decimal digit of any script. *)
Definition decimal_value (cp : N) : option N :=
  (fun z => cp - z)%N <$> List.find (fun z => in_range z (z + 9) cp) digit_zeros.

(** What [float] and [int] do to a [str] before they read it: an ASCII
    character is kept, a space of another script becomes a blank, a decimal
    digit of another script becomes its ASCII digit, and anything else
    makes the text unreadable. *)
Fixpoint ascii_of_code_points (l : list N) : option string :=
  match l with
  | [] => Some EmptyString
  | cp :: r =>
      if (cp <? 127)%N then String (chr cp) <$> ascii_of_code_points r
      else if is_unicode_space cp then String " " <$> ascii_of_code_points r
      else
        match decimal_value cp with
        | Some d => String (chr (48 + d)) <$> ascii_of_code_points r
        | None => None
        end
  end.

Definition to_ascii_decimal (s : string) : option string :=
  ascii_of_code_points (code_points s).

(** The ASCII white space the two conversions skip at both ends. *)
Definition is_space (c : ascii) : bool :=
  in_range 9 13 (ord c) || (ord c =? 32)%N.

Fixpoint lstrip (s : string) : string :=
  match s with
  | String c r => if is_space c then lstrip r else s
  | EmptyString => s
  end.

Definition strip (s : string) : string :=
  String.rev (lstrip (String.rev (lstrip s))).

(** An underscore may only stand between two digits; they are removed. *)
Fixpoint drop_underscores (prev : ascii) (s : string) : option string :=
  match s with
  | EmptyString => if Ascii.eqb prev "_" then None else Some EmptyString
  | String c r =>
      if Ascii.eqb c "_" then
        if is_digit prev then drop_underscores c r else None
      else if Ascii.eqb prev "_" && negb (is_digit c) then None
      else String c <$> drop_underscores c r
  end.

Definition strip_sign (s : string) : bool * string :=
  match s with
  | String c r =>
      if Ascii.eqb c "-" then (true, r)
      else if Ascii.eqb c "+" then (false, r)
      else (false, s)
  | EmptyString => (false, s)
  end.

Definition to_lower (c : ascii) : ascii :=
  if in_range 65 90 (ord c) then chr (ord c + 32) else c.

Fixpoint lower (s : string) : string :=
  match s with
  | String c r => String (to_lower c) (lower r)
  | EmptyString => EmptyString
  end.

(** [float(s)] for a [str]. *)
Definition float_of_string (s : string) : result PyFloat.float :=
  match to_ascii_decimal s ≫= fun a => drop_underscores (chr 0) (strip a) with
  | None => Raise ValueError
  | Some u =>
      let '(neg, b) := strip_sign u in
      let lb := lower b in
      if String.eqb lb "inf" || String.eqb lb "infinity" then Ok (S754_infinity neg)
      else if String.eqb lb "nan" then Ok S754_nan
      else
        let '(ip, r1) := take_digits b in
        let '(fp, r2) :=
          match r1 with
          | String c r =>
              if Ascii.eqb c "." then take_digits r else (EmptyString, r1)
          | EmptyString => (EmptyString, r1)
          end in
        if String.eqb ip EmptyString && String.eqb fp EmptyString
        then Raise ValueError
        else
          let '(ex, r3) := Json.scan_exp r2 in
          match r3 with
          | EmptyString =>
              Ok (PyFloat.of_decimal neg (Z_of_digits (String.append ip fp))
                    (default 0 ex - strlen fp))
          | String _ _ => Raise ValueError
          end
  end.

(** [int(s)] for a [str], in base ten. *)
Definition int_of_string (s : string) : result Z :=
  match to_ascii_decimal s ≫= fun a => drop_underscores (chr 0) (strip a) with
  | None => Raise ValueError
  | Some u =>
      let '(neg, b) := strip_sign u in
      match take_digits b with
      | (String c d, EmptyString) =>
          if int_max_str_digits <? strlen (String c d) then Raise ValueError
          else Ok (cond_Zopp neg (Z_of_digits (String c d)))
      | _ => Raise ValueError
      end
  end.

(** [float(x)] for a decoded JSON object. *)
Definition py_float (x : json) : result PyFloat.float :=
  match x with
  | JNone => Raise TypeError
  | JBool b => Ok (PyFloat.round_of_Z (if b then 1 else 0))
  | JInt n => PyFloat.of_int n
  | JFloat f => Ok f
  | JStr s => float_of_string s
  | JList _ | JDict _ => Raise TypeError
  end.

(** [data[key]] for a string key. *)
Definition getitem (data : json) (key : string) : result json :=
  match data with
  | JDict d =>
      match dict_get key d with
      | Some v => Ok v
      | None => Raise KeyError
      end
  | _ => Raise TypeError
  end.

(** ** The classifier *)

(** One label of the array a classifier returns. *)
Inductive scalar : Type :=
  | SInt (n : Z)
  | SFloat (x : PyFloat.float)
  | SBool (b : bool)
  | SStr (s : string)
  | SNone.

(** [int(p)] *)
Definition py_int (p : scalar) : result Z :=
  match p with
  | SInt n => Ok n
  | SFloat x => PyFloat.to_int x
  | SBool b => Ok (if b then 1 else 0)
  | SStr s => int_of_string s
  | SNone => Raise TypeError
  end.

(** A frame of float columns, in column order. *)
Definition DataFrame : Type := list (string * list PyFloat.float).

(** The loaded artifact: one operation, which returns an array of labels or
    raises. *)
Record classifier : Type := { predict : DataFrame -> result (list scalar) }.

(** [a[0]] *)
Definition first {A : Type} (a : list A) : result A :=
  match a with
  | x :: _ => Ok x
  | [] => Raise IndexError
  end.

(** ** realtime_inference.py *)

Definition ESC : string := Eval cbv in String (chr 27) EmptyString.
Definition COLOR_RESET : string := Eval cbv in String.append ESC "[0m".
Definition COLOR_GREEN : string := Eval cbv in String.append ESC "[92m".
Definition COLOR_RED : string := Eval cbv in String.append ESC "[91m".
Definition COLOR_BOLD : string := Eval cbv in String.append ESC "[1m".

Definition concat_str (l : list string) : string :=
  fold_right String.append EmptyString l.

Definition build_features (temperature vibration : PyFloat.float) : DataFrame :=
  [ ("temperature"%string, [temperature]);
    ("vibration"%string, [vibration]) ].

Record MQTTMessage : Type := { topic : string; payload : bytes }.

(** What [userdata] can hold under a key. *)
Inductive pyval : Type :=
  | VNone
  | VModel (m : classifier).

(** [userdata.get("model")], [None] standing for Python's [None]. *)
Definition userdata_get_model (userdata : gmap string pyval) : option classifier :=
  match userdata !! "model"%string with
  | Some (VModel m) => Some m
  | Some VNone | None => None
  end.

(** The diagnostics the handler prints; their text embeds the exception. *)
Inductive diag : Type :=
  | ModelNotFound
  | DecodeFailed (on_topic : string) (exc : exn)
  | InvalidFields (data : json) (exc : exn)
  | PredictionFailed (exc : exn).

Inductive line : Type :=
  | Log (d : diag)
  | Alert (text : string).

(** What the handler does that the outside sees, in order. *)
Inductive event : Type :=
  | CallPredict (X : DataFrame)
  | Stdout (l : line).

Inductive outcome : Type :=
  | Returned
  | Raised (e : exn).

Definition anomaly_text (temperature vibration : PyFloat.float) : string :=
  concat_str
    [ COLOR_RED; COLOR_BOLD; "🚨 [ALERT] ANOMALY DETECTED! ";
      "Machine failure imminent! Temp: "; PyFloat.format_2f temperature;
      "°C, Vib: "; PyFloat.format_2f vibration; " mm/s 🚨"; COLOR_RESET ]%string.

Definition normal_text (temperature vibration : PyFloat.float) : string :=
  concat_str
    [ COLOR_GREEN; "[NORMAL]"; COLOR_RESET; " ";
      "Temp: "; PyFloat.format_2f temperature;
      "°C, Vib: "; PyFloat.format_2f vibration; " mm/s" ]%string.

(** A [str] that holds a lone surrogate, which a JSON escape can produce,
    cannot be encoded for the console. *)
Definition has_lone_surrogate (s : string) : bool :=
  existsb (in_range 55296 57343) (code_points s).

(** Whether [print] can write the diagnostic of the invalid fields.  Its
    f-string embeds [data] through [str]: a [str] goes in as it is, any
    other object through its [repr], which escapes what the console cannot
    take; the texts of the exceptions met there are ASCII or quote their
    argument through [repr].  The console is taken to encode in UTF-8, as
    it does by default, so that the alert lines and every text without a
    lone surrogate can be written.  The other diagnostics embed the topic,
    which the library decoded from UTF-8, the text of a decoding error,
    which holds no surrogate, and the text of the classifier's exception,
    which is taken to be encodable. *)
Definition printable (data : json) : bool :=
  match data with
  | JStr s => negb (has_lone_surrogate s)
  | _ => true
  end.

(** The body of the first [try]: decode the payload, parse it. *)
Definition decode_payload (msg : MQTTMessage) : result json :=
  payload_str ← bytes_decode_utf8 (payload msg);
  Json.loads payload_str.

(** The body of the second [try]: the two fields, each through [float]. *)
Definition extract_fields (data : json) : result (PyFloat.float * PyFloat.float) :=
  temperature ← getitem data "temperature" ≫= py_float;
  vibration ← getitem data "vibration" ≫= py_float;
  Ok (temperature, vibration).

Definition on_message (userdata : gmap string pyval) (msg : MQTTMessage)
  : list event * outcome :=
  match userdata_get_model userdata with
  | None => ([Stdout (Log ModelNotFound)], Returned)
  | Some model =>
      match decode_payload msg with
      | Raise exc => ([Stdout (Log (DecodeFailed (topic msg) exc))], Returned)
      | Ok data =>
          match extract_fields data with
          | Raise exc =>
              if is_key_type_value_error exc then
                if printable data
                then ([Stdout (Log (InvalidFields data exc))], Returned)
                else ([], Raised UnicodeEncodeError)
              else ([], Raised exc)
          | Ok (temperature, vibration) =>
              let X := build_features temperature vibration in
              match predict model X ≫= first with
              | Raise exc =>
                  ([CallPredict X; Stdout (Log (PredictionFailed exc))], Returned)
              | Ok prediction =>
                  match py_int prediction with
                  | Raise exc => ([CallPredict X], Raised exc)
                  | Ok n =>
                      let msg_text :=
                        if n =? 1 then anomaly_text temperature vibration
                        else normal_text temperature vibration in
                      ([CallPredict X; Stdout (Alert msg_text)], Returned)
                  end
              end
          end
      end
  end.

(** The network loop hands the messages to the handler one after the other;
    an exception that leaves the handler ends the loop. *)
Fixpoint dispatch (userdata : gmap string pyval) (msgs : list MQTTMessage)
  : list event * outcome :=
  match msgs with
  | [] => ([], Returned)
  | m :: rest =>
      match on_message userdata m with
      | (ev, Returned) =>
          let '(ev', o) := dispatch userdata rest in (ev ++ ev', o)
      | (ev, Raised e) => (ev, Raised e)
      end
  end.

(** The alert lines among the events. *)
Definition alerts (evs : list event) : list string :=
  omap (fun ev => match ev with Stdout (Alert t) => Some t | _ => None end) evs.

(** The feature frames the classifier was called with. *)
Definition predict_calls (evs : list event) : list DataFrame :=
  omap (fun ev => match ev with CallPredict X => Some X | _ => None end) evs.

(** ** generate_historical_data.py *)

Module Generator.

(** *** Arrays *)

(** [a[idx] = v] for an array of indices and one value. *)
Fixpoint set_at_indices_const {A : Type} (a : list A) (idx : list nat) (v : A)
  : result (list A) :=
  match idx with
  | [] => Ok a
  | i :: idx' =>
      if (i <? length a)%nat then set_at_indices_const (<[i:=v]> a) idx' v
      else Raise IndexError
  end.

(** [a[idx] = vals] for an array of indices and as many values. *)
Fixpoint set_at_indices {A : Type} (a : list A) (idx : list nat) (vals : list A)
  : result (list A) :=
  match idx, vals with
  | [], [] => Ok a
  | i :: idx', v :: vals' =>
      if (i <? length a)%nat then set_at_indices (<[i:=v]> a) idx' vals'
      else Raise IndexError
  | _, _ => Raise ValueError
  end.

(** [a[mask] = vals] for a boolean mask as long as [a] and one value per
    selected position, taken in order. *)
Fixpoint set_at_mask {A : Type} (a : list A) (mask : list bool) (vals : list A)
  : result (list A) :=
  match a, mask with
  | [], [] =>
      match vals with
      | [] => Ok []
      | _ :: _ => Raise ValueError
      end
  | x :: a', true :: mask' =>
      match vals with
      | v :: vals' => r ← set_at_mask a' mask' vals'; Ok (v :: r)
      | [] => Raise ValueError
      end
  | x :: a', false :: mask' => r ← set_at_mask a' mask' vals; Ok (x :: r)
  | _, _ => Raise IndexError
  end.

(** [int(mask.sum())] *)
Definition mask_sum (mask : list bool) : nat := length (filter (eq true) mask).

(** [np.empty(n)]: [n] cells holding whatever the memory held. *)
Definition np_empty (garbage : nat -> PyFloat.float) (n : nat)
  : list PyFloat.float :=
  map garbage (seq 0 n).

(** [np.zeros(n, dtype=np.int32)] *)
Definition np_zeros (n : nat) : list Z := replicate n 0.

Definition zero : PyFloat.float := S754_zero false.

(** [np.clip(a, a_min=0.0, a_max=None)], one cell: the cell when it is
    above zero or a NaN, and [0.0] otherwise (so also for [-0.0]). *)
Definition clip_min0 (x : PyFloat.float) : PyFloat.float :=
  if PyFloat.ltb zero x || PyFloat.is_nan x then x else zero.

(** *** Time: microseconds since the epoch, UTC *)

Definition minute : Z := 60000000.

(** [t.replace(second=0, microsecond=0)] *)
Definition truncate_to_minute (t : Z) : Z := t - t mod minute.

(** [pd.date_range(start=start, periods=n, freq="1min")] *)
Definition date_range (start : Z) (periods : nat) : list Z :=
  map (fun i => start + Z.of_nat i * minute) (seq 0 periods).

(** *** The frame *)

Record row : Type := {
  timestamp : Z;
  machineId : string;
  temperature : PyFloat.float;
  vibration : PyFloat.float;
  is_anomaly : Z
}.

(** [pd.DataFrame({...})] from four columns and one scalar: the columns
    must be equally long. *)
Fixpoint make_frame (ts : list Z) (mid : string) (temp vib : list PyFloat.float)
  (lab : list Z) : result (list row) :=
  match ts, temp, vib, lab with
  | [], [], [], [] => Ok []
  | t :: ts', x :: temp', y :: vib', l :: lab' =>
      r ← make_frame ts' mid temp' vib' lab';
      Ok ({| timestamp := t; machineId := mid; temperature := x;
             vibration := y; is_anomaly := l |} :: r)
  | _, _, _, _ => Raise ValueError
  end.

(** *** The random generator *)

(** [np.random.default_rng()]: a state and the three draws the program
    uses, each returning its sample and the next state. *)
Record rng_ops (S : Type) : Type := {
  (* rng.choice(n, size=k, replace=False) *)
  choice : nat -> nat -> S -> list nat * S;
  (* rng.normal(loc=loc, scale=scale, size=k) *)
  normal : PyFloat.float -> PyFloat.float -> nat -> S -> list PyFloat.float * S;
  (* rng.uniform(low=low, high=high, size=k) *)
  uniform : PyFloat.float -> PyFloat.float -> nat -> S -> list PyFloat.float * S
}.
Arguments choice {S} _ _ _ _.
Arguments normal {S} _ _ _ _ _.
Arguments uniform {S} _ _ _ _ _.

Definition within (low high x : PyFloat.float) : bool :=
  PyFloat.leb low x && PyFloat.leb x high.

(** What the library promises of the draws: a sample without replacement
    is made of [k] distinct indices below [n]; a normal sample is made of
    [k] finite values; a uniform sample is made of [k] values between the
    bounds. *)
Record rng_contract {S : Type} (rng : rng_ops S) : Prop := {
  choice_ok : forall n k s, (k <= n)%nat ->
    length (choice rng n k s).1 = k /\ NoDup (choice rng n k s).1
    /\ Forall (fun i => (i < n)%nat) (choice rng n k s).1;
  normal_ok : forall loc scale k s,
    length (normal rng loc scale k s).1 = k
    /\ Forall (fun x => PyFloat.is_finite x = true) (normal rng loc scale k s).1;
  uniform_ok : forall low high k s, PyFloat.leb low high = true ->
    length (uniform rng low high k s).1 = k
    /\ Forall (fun x => within low high x = true) (uniform rng low high k s).1
}.

(** *** The program *)

#[warnings="-abstract-large-number"]
Definition n_rows : nat := 10000.
Definition machine_id : string := "NC_Machine_AC".

(** The float literals of the program. *)
Definition lit_0_05 : PyFloat.float := PyFloat.of_decimal false 5 (-2).
Definition lit_68_0 : PyFloat.float := PyFloat.of_decimal false 680 (-1).
Definition lit_3_0 : PyFloat.float := PyFloat.of_decimal false 30 (-1).
Definition lit_1_8 : PyFloat.float := PyFloat.of_decimal false 18 (-1).
Definition lit_0_3 : PyFloat.float := PyFloat.of_decimal false 3 (-1).
Definition lit_80_0 : PyFloat.float := PyFloat.of_decimal false 800 (-1).
Definition lit_100_0 : PyFloat.float := PyFloat.of_decimal false 1000 (-1).
Definition lit_5_0 : PyFloat.float := PyFloat.of_decimal false 50 (-1).

(** [int(round(n_rows * 0.05))] *)
Definition anomaly_count_of (n : nat) : result nat :=
  x ← PyFloat.of_int (Z.of_nat n);
  Z.to_nat <$> PyFloat.round (PyFloat.mul x lit_0_05).

Section Main.
Context {S : Type} (rng : rng_ops S).

(** [main], from the clock reading [now], the initial state of the
    generator and the content of the uninitialised arrays; the result is
    the frame written to the CSV file. *)
Definition main (now : Z) (s0 : S) (garbage_t garbage_v : nat -> PyFloat.float)
  : result (list row) :=
  let end_ts := truncate_to_minute now in
  let start_ts := end_ts - Z.of_nat (n_rows - 1) * minute in
  let timestamps := date_range start_ts n_rows in
  let temperature := np_empty garbage_t n_rows in
  let vibration := np_empty garbage_v n_rows in
  let is_anomaly := np_zeros n_rows in
  anomaly_count ← anomaly_count_of n_rows;
  let '(anomaly_idx, s1) := choice rng n_rows anomaly_count s0 in
  is_anomaly ← set_at_indices_const is_anomaly anomaly_idx 1;
  let normal_mask := map (fun l => l =? 0) is_anomaly in
  let normal_count := mask_sum normal_mask in
  let '(normal_t, s2) := normal rng lit_68_0 lit_3_0 normal_count s1 in
  temperature ← set_at_mask temperature normal_mask normal_t;
  let '(normal_v, s3) := normal rng lit_1_8 lit_0_3 normal_count s2 in
  vibration ← set_at_mask vibration normal_mask normal_v;
  let '(spike_t, s4) := uniform rng lit_80_0 lit_100_0 anomaly_count s3 in
  temperature ← set_at_indices temperature anomaly_idx spike_t;
  let '(spike_v, s5) := uniform rng lit_3_0 lit_5_0 anomaly_count s4 in
  vibration ← set_at_indices vibration anomaly_idx spike_v;
  let vibration := map clip_min0 vibration in
  make_frame timestamps machine_id temperature vibration is_anomaly.
End Main.

End Generator.

(** ** Vocabulary of the properties *)

(** [sub in s] *)
Fixpoint contains (sub s : string) : bool :=
  String.prefix sub s ||
  match s with
  | String _ r => contains sub r
  | EmptyString => false
  end.

(** The two alert formats, told apart by how the line starts. *)
Definition anomaly_styled (s : string) : bool :=
  String.prefix
    (concat_str [COLOR_RED; COLOR_BOLD; "🚨 [ALERT] ANOMALY DETECTED!"%string]) s.

Definition normal_styled (s : string) : bool :=
  String.prefix (concat_str [COLOR_GREEN; "[NORMAL]"%string; COLOR_RESET]) s.

(** The coercion the specification names: the nearest integer.  It is what
    [round] computes, not what the handler's [int] computes. *)
Definition round_to_nearest_int (p : scalar) : result Z :=
  match p with
  | SFloat x => PyFloat.round x
  | _ => py_int p
  end.

(** The magnitude of a finite float [m * 2^e] lies in [[n, n + 1)]. *)
Definition magnitude_in_unit_interval (m : positive) (e n : Z) : Prop :=
  if 0 <=? e then n = Zpos m * 2 ^ e
  else n * 2 ^ (- e) <= Zpos m < (n + 1) * 2 ^ (- e).

(** The indices the generator marks as anomalies: its first draw, made on
    the initial state, of [500 = int(round(n_rows * 0.05))] indices. *)
Definition first_draw {S : Type} (rng : Generator.rng_ops S) (s0 : S) : list nat :=
  (Generator.choice rng Generator.n_rows 500 s0).1.

(** How many labels of a column are 1. *)
Definition ones (lab : list Z) : nat := length (filter (fun l => l = 1) lab).

(** The rows of a frame that carry a label. *)
Definition labelled (l : Z) (rows : list Generator.row) : list Generator.row :=
  filter (fun r => Generator.is_anomaly r = l) rows.

(** ** Concrete inputs *)

Definition quoted (s : string) : string :=
  String dquote (String.append s (String dquote EmptyString)).

(** The payload of one reading, the two values given as JSON text. *)
Definition telemetry_payload (temperature vibration : string) : bytes :=
  list_byte_of_string
    (concat_str [ "{"; quoted "temperature"; ": "; temperature; ", ";
                  quoted "vibration"; ": "; vibration; "}" ]%string).

Definition TOPIC : string := "factory/telemetry".

Definition telemetry (temperature vibration : string) : MQTTMessage :=
  {| topic := TOPIC; payload := telemetry_payload temperature vibration |}.

(** A stub classifier that answers one fixed label. *)
Definition stub_classifier (p : scalar) : classifier :=
  {| predict := fun _ => Ok [p] |}.

(** A classifier whose [predict] raises. *)
Definition failing_classifier (e : exn) : classifier :=
  {| predict := fun _ => Raise e |}.

(** [client.user_data_set({"model": model})], as [create_mqtt_client] does. *)
Definition user_data (model : classifier) : gmap string pyval :=
  {[ "model"%string := VModel model ]}.

(** An integer literal of 310 digits: a JSON number no float can hold. *)
Definition huge_integer : string :=
  String "1" (concat_str (repeat "0"%string 309)).

Definition lit_1_75 : PyFloat.float := PyFloat.of_decimal false 175 (-2).

(** A generator that draws the first indices, 68.0 for every normal reading
    and the lower bound for every uniform one. *)
Definition fixed_rng : Generator.rng_ops unit :=
  {| Generator.choice := fun n k s => (seq 0 k, s);
     Generator.normal := fun loc scale k s => (repeat Generator.lit_68_0 k, s);
     Generator.uniform := fun low high k s => (repeat low k, s) |}.

(** Uninitialised cells that all hold NaN. *)
Definition nan_garbage : nat -> PyFloat.float := fun _ => S754_nan.

(** ** realtime_inference.py: the session around the handler *)

Definition ENDPOINT : string := "a1bc8ob2maqsyv-ats.iot.us-east-1.amazonaws.com".
Definition CLIENT_ID : string := "inference_client".
Definition PATH_TO_CERT : string := "./certs/certificate.pem.crt".
Definition PATH_TO_KEY : string := "./certs/private.pem.key".
Definition PATH_TO_ROOT_CA : string := "./certs/AmazonRootCA1.pem".

(** The default of [load_model]'s [path]. *)
Definition MODEL_PATH : string := "predictive_maintenance_rf_model.joblib".

(** [str(n)] for an [int]. *)
Definition str_of_int (n : Z) : string :=
  String.append (PyFloat.sign_str (n <? 0)) (PyFloat.decimal_of_Z (Z.abs n)).

(** The arguments of [client.tls_set]. *)
Record tls_config : Type := {
  ca_certs : string;
  certfile : string;
  keyfile : string;
  cert_required : bool;          (* cert_reqs=ssl.CERT_REQUIRED *)
  tls_client_protocol : bool;    (* tls_version=ssl.PROTOCOL_TLS_CLIENT *)
  ciphers : option string
}.

(** What the session does that the outside sees, in order. *)
Inductive action : Type :=
  | Say (text : string)
  | SayConnectFailed (exc : exn)
  | JoblibLoad (path : string)
  | TlsSet (cfg : tls_config)
  | Connect (host : string) (port keepalive : Z)
  | Subscribe (sub_topic : string) (qos : Z)
  | LoopForever
  | Handled (ev : event)
  | Disconnect.

(** [on_connect]: the client, the user data and the flags play no part. *)
Definition on_connect (userdata : gmap string pyval) (flags : gmap string Z) (rc : Z)
  : list action :=
  if rc =? 0 then
    [ Say (concat_str [ "Connected to AWS IoT Core as client '"; CLIENT_ID;
                        "'. Subscribing to '"; TOPIC; "'..." ]%string);
      Subscribe TOPIC 1 ]
  else
    [ Say (String.append "Connection failed with result code " (str_of_int rc)) ].

(** The client object, as far as the program configures it. *)
Record mqtt_client : Type := {
  client_id : string;
  client_userdata : gmap string pyval;
  client_tls : option tls_config;
  client_tls_insecure : bool;
  client_on_connect : option (gmap string pyval -> gmap string Z -> Z -> list action);
  client_on_message :
    option (gmap string pyval -> MQTTMessage -> list event * outcome)
}.

(** How [client.loop_forever()] ends. *)
Inductive loop_end : Type :=
  | LoopReturned
  | LoopInterrupted            (* KeyboardInterrupt *)
  | LoopRaised (e : exn).

(** What the program does not decide: the file system, the network, the
    broker and the user.  The loop hands back what the callbacks did and how
    it ended. *)
Record world : Type := {
  joblib_load : string -> result pyval;
  tls_load : tls_config -> result unit;
  connect : string -> Z -> Z -> result unit;
  loop_forever : mqtt_client -> list action * loop_end;
  disconnect : result unit
}.

Definition load_model (w : world) (path : string) : list action * result pyval :=
  let tr := [Say (String.append "Loading model from: " path); JoblibLoad path] in
  match joblib_load w path with
  | Ok model => (tr ++ [Say "Model loaded successfully."%string], Ok model)
  | Raise e => (tr, Raise e)
  end.

Definition the_tls_config : tls_config :=
  {| ca_certs := PATH_TO_ROOT_CA; certfile := PATH_TO_CERT; keyfile := PATH_TO_KEY;
     cert_required := true; tls_client_protocol := true; ciphers := None |}.

Definition create_mqtt_client (w : world) (model : pyval)
  : list action * result mqtt_client :=
  let userdata : gmap string pyval := {[ "model"%string := model ]} in
  match tls_load w the_tls_config with
  | Raise e => ([TlsSet the_tls_config], Raise e)
  | Ok _ =>
      ([TlsSet the_tls_config],
       Ok {| client_id := CLIENT_ID;
             client_userdata := userdata;
             client_tls := Some the_tls_config;
             client_tls_insecure := false;
             client_on_connect := Some on_connect;
             client_on_message := Some on_message |})
  end.

Definition newline : string := Eval cbv in String (chr 10) EmptyString.

(** [main] of realtime_inference.py.  The [try] around [connect] catches
    every exception; the one around the loop catches the user's interrupt
    only; the [finally] disconnects, whatever [disconnect] answers, and
    prints the farewell. *)
Definition inference_main (w : world) : list action * outcome :=
  let tr0 := [ Say "=== Real-Time Predictive Maintenance Inference ===";
               Say "Loading model and connecting to AWS IoT Core..." ]%string in
  match load_model w MODEL_PATH with
  | (tr1, Raise e) => (tr0 ++ tr1, Raised e)
  | (tr1, Ok model) =>
      match create_mqtt_client w model with
      | (tr2, Raise e) => (tr0 ++ tr1 ++ tr2, Raised e)
      | (tr2, Ok client) =>
          let tr3 :=
            [ Say (concat_str [ "Connecting to "; ENDPOINT; " with client ID '";
                                CLIENT_ID; "'..." ]%string);
              Connect ENDPOINT 8883 60 ] in
          match connect w ENDPOINT 8883 60 with
          | Raise exc => (tr0 ++ tr1 ++ tr2 ++ tr3 ++ [SayConnectFailed exc], Returned)
          | Ok _ =>
              let tr4 :=
                [ Say (concat_str [ "Subscribed to topic '"; TOPIC;
                                    "'. Waiting for telemetry messages..." ]%string);
                  Say "Press Ctrl+C to stop."%string;
                  LoopForever ] in
              let '(during, stop) := loop_forever w client in
              let tr5 :=
                match stop with
                | LoopInterrupted =>
                    [Say (String.append newline "Interrupted by user, disconnecting...")]
                | LoopReturned | LoopRaised _ => []
                end in
              let tr6 :=
                match disconnect w with
                | Ok _ | Raise _ => [Disconnect]
                end ++ [Say "Disconnected from AWS IoT Core."%string] in
              (tr0 ++ tr1 ++ tr2 ++ tr3 ++ tr4 ++ during ++ tr5 ++ tr6,
               match stop with
               | LoopRaised e => Raised e
               | LoopReturned | LoopInterrupted => Returned
               end)
          end
      end
  end.

(** Whether an action is of a kind. *)
Definition is_connect (a : action) : bool :=
  match a with Connect _ _ _ => true | _ => false end.
Definition is_disconnect (a : action) : bool :=
  match a with Disconnect => true | _ => false end.
Definition is_loop (a : action) : bool :=
  match a with LoopForever => true | _ => false end.
Definition is_subscribe (a : action) : bool :=
  match a with Subscribe _ _ => true | _ => false end.

Definition count_of (p : action -> bool) (tr : list action) : nat :=
  length (filter (fun a => p a = true) tr).

(** A broker loop for the examples: it acknowledges the connection with
    [rc], hands the messages of an inbox to the registered handler one after
    the other, and is then interrupted by the user; an exception that leaves
    the handler ends it. *)
Definition scripted_loop (rc : Z) (inbox : list MQTTMessage) (c : mqtt_client)
  : list action * loop_end :=
  let acks :=
    match client_on_connect c with
    | Some f => f (client_userdata c) ∅ rc
    | None => []
    end in
  match dispatch (client_userdata c) inbox with
  | (evs, Returned) => (acks ++ map Handled evs, LoopInterrupted)
  | (evs, Raised e) => (acks ++ map Handled evs, LoopRaised e)
  end.

Definition scripted_world (model : pyval) (connect_result : result unit)
  (rc : Z) (inbox : list MQTTMessage) (disconnect_result : result unit) : world :=
  {| joblib_load := fun _ => Ok model;
     tls_load := fun _ => Ok tt;
     connect := fun _ _ _ => connect_result;
     loop_forever := scripted_loop rc inbox;
     disconnect := disconnect_result |}.

(** ** More vocabulary *)

(** The lines a run of the handler printed. *)
Definition printed (evs : list event) : list line :=
  omap (fun ev => match ev with Stdout l => Some l | _ => None end) evs.

(** The five samples [main] of the generator draws, in the order it draws
    them, each on the state the one before left. *)
Record samples : Type := {
  anomaly_idx : list nat;
  normal_t : list PyFloat.float;
  normal_v : list PyFloat.float;
  spike_t : list PyFloat.float;
  spike_v : list PyFloat.float
}.

Definition draw_samples {S : Type} (rng : Generator.rng_ops S) (s0 : S) : samples :=
  let n := (Generator.n_rows - 500)%nat in
  let '(idx, s1) := Generator.choice rng Generator.n_rows 500 s0 in
  let '(nt, s2) := Generator.normal rng Generator.lit_68_0 Generator.lit_3_0 n s1 in
  let '(nv, s3) := Generator.normal rng Generator.lit_1_8 Generator.lit_0_3 n s2 in
  let '(ut, s4) := Generator.uniform rng Generator.lit_80_0 Generator.lit_100_0 500 s3 in
  let '(uv, _) := Generator.uniform rng Generator.lit_3_0 Generator.lit_5_0 500 s4 in
  {| anomaly_idx := idx; normal_t := nt; normal_v := nv; spike_t := ut; spike_v := uv |}.

Definition set_disconnect (w : world) (d : result unit) : world :=
  {| joblib_load := joblib_load w; tls_load := tls_load w; connect := connect w;
     loop_forever := loop_forever w; disconnect := d |}.

Definition subscribed_line : string :=
  concat_str [ "Subscribed to topic '"; TOPIC;
               "'. Waiting for telemetry messages..." ]%string.

(** An event that differs from each event of an explicit list is not in it. *)
Ltac not_among_events :=
  let Hin := fresh "Hin" in
  intros Hin;
  repeat (apply elem_of_cons in Hin as [Hin|Hin]; [discriminate Hin|]);
  now apply elem_of_nil in Hin.

(** ** The inference handler *)

Section Handler.
Variable userdata : gmap string pyval.
Variable msg : MQTTMessage.

Lemma on_message_no_model :
  userdata_get_model userdata = None ->
  on_message userdata msg = ([Stdout (Log ModelNotFound)], Returned).
Proof. intros H. unfold on_message. now rewrite H. Qed.

Section WithModel.
Variable model : classifier.
Hypothesis Hmodel : userdata_get_model userdata = Some model.

(** A payload that does not decode or does not parse is logged and
    dropped. *)
Lemma undecodable_payload_is_dropped exc :
  decode_payload msg = Raise exc ->
  on_message userdata msg
  = ([Stdout (Log (DecodeFailed (topic msg) exc))], Returned).
Proof. intros H. unfold on_message. now rewrite Hmodel, H. Qed.

(** A payload whose extraction raises one of the three caught classes is
    logged and dropped, when the diagnostic can be printed. *)
Lemma invalid_fields_are_dropped data exc :
  decode_payload msg = Ok data ->
  extract_fields data = Raise exc ->
  is_key_type_value_error exc = true ->
  printable data = true ->
  on_message userdata msg
  = ([Stdout (Log (InvalidFields data exc))], Returned).
Proof. intros H1 H2 H3 H4. unfold on_message. now rewrite Hmodel, H1, H2, H3, H4. Qed.

(** When it cannot, the [print] of the [except] clause raises and the
    exception leaves the handler. *)
Lemma unprintable_data_escapes data exc :
  decode_payload msg = Ok data ->
  extract_fields data = Raise exc ->
  is_key_type_value_error exc = true ->
  printable data = false ->
  on_message userdata msg = ([], Raised UnicodeEncodeError).
Proof. intros H1 H2 H3 H4. unfold on_message. now rewrite Hmodel, H1, H2, H3, H4. Qed.

(** Any other exception of the extraction leaves the handler. *)
Lemma uncaught_extraction_error_escapes data exc :
  decode_payload msg = Ok data ->
  extract_fields data = Raise exc ->
  is_key_type_value_error exc = false ->
  on_message userdata msg = ([], Raised exc).
Proof. intros H1 H2 H3. unfold on_message. now rewrite Hmodel, H1, H2, H3. Qed.

Lemma on_message_inference data t v :
  decode_payload msg = Ok data ->
  extract_fields data = Ok (t, v) ->
  on_message userdata msg
  = let X := build_features t v in
    match predict model X ≫= first with
    | Raise exc => ([CallPredict X; Stdout (Log (PredictionFailed exc))], Returned)
    | Ok prediction =>
        match py_int prediction with
        | Raise exc => ([CallPredict X], Raised exc)
        | Ok n =>
            ([CallPredict X;
              Stdout (Alert (if n =? 1 then anomaly_text t v
                             else normal_text t v))], Returned)
        end
    end.
Proof. intros H1 H2. unfold on_message. now rewrite Hmodel, H1, H2. Qed.
End WithModel.
End Handler.

(** A message on which the handler returns leaves the loop running: the rest
    is processed as if it had come alone. *)
Lemma dispatch_after_return userdata msg rest evs :
  on_message userdata msg = (evs, Returned) ->
  dispatch userdata (msg :: rest)
  = (evs ++ (dispatch userdata rest).1, (dispatch userdata rest).2).
Proof.
  intros H. cbn [dispatch]. rewrite H. now destruct (dispatch userdata rest).
Qed.

(** A missing field raises [KeyError]; data that is no dict raises
    [TypeError].  Both are among the caught classes. *)
Lemma missing_temperature_raises_KeyError d :
  dict_get "temperature" d = None ->
  extract_fields (JDict d) = Raise KeyError.
Proof. intros H. unfold extract_fields. cbn. now rewrite H. Qed.

Lemma missing_vibration_raises_KeyError d tv t :
  dict_get "temperature" d = Some tv -> py_float tv = Ok t ->
  dict_get "vibration" d = None ->
  extract_fields (JDict d) = Raise KeyError.
Proof. intros H1 H2 H3. unfold extract_fields. cbn. rewrite H1. cbn. rewrite H2. cbn. now rewrite H3. Qed.

(** [float] raises nothing but [TypeError], [ValueError] and
    [OverflowError], and the last one only for an [int]. *)
Lemma py_float_errors x exc :
  py_float x = Raise exc ->
  exc = TypeError \/ exc = ValueError \/ (exc = OverflowError /\ exists n, x = JInt n).
Proof.
  destruct x as [|b|n|f|s|l|d]; cbn; intros H; try discriminate; try (left; congruence).
  - right; right. unfold PyFloat.of_int in H.
    destruct (PyFloat.round_of_Z n); try discriminate.
    inversion H; eauto.
  - right; left. unfold float_of_string in H.
    repeat match type of H with
           | context [match ?t with _ => _ end] => destruct t
           | context [if ?t then _ else _] => destruct t
           end; congruence.
Qed.

(** [float] and [int] read the decimal digits and the spaces of every
    script: Arabic-Indic and fullwidth digits are digits and a no-break
    space is a space, while a fullwidth full stop is no decimal point and
    the separators 28 to 31 are not skipped. *)
Lemma conversions_read_unicode_digits :
  float_of_string "١٢٣" = Ok (PyFloat.round_of_Z 123)
  /\ int_of_string "١٢٣" = Ok 123
  /\ float_of_string "１２e１" = Ok (PyFloat.round_of_Z 120)
  /\ float_of_string "٩٥.٠" = Ok (PyFloat.of_decimal false 950 (-1))
  /\ float_of_string (String.append (utf8_encode 160) "1.5")
     = Ok (PyFloat.of_decimal false 15 (-1))
  /\ int_of_string (String.append (utf8_encode 133) (String.append "7" (utf8_encode 12288)))
     = Ok 7
  /\ float_of_string "1．5" = Raise ValueError
  /\ int_of_string "１.5" = Raise ValueError
  /\ float_of_string (String (chr 28) "1.5") = Raise ValueError
  /\ float_of_string (String.append "1" (utf8_encode 55296)) = Raise ValueError.
Proof. vm_compute. repeat split. Qed.

(** The extraction raises one of the caught classes or [OverflowError]. *)
Lemma extract_fields_errors data exc :
  extract_fields data = Raise exc ->
  is_key_type_value_error exc = true \/ exc = OverflowError.
Proof.
  assert (Hget : forall k e, getitem data k = Raise e ->
                             is_key_type_value_error e = true).
  { intros k e. unfold getitem. destruct data; try (intros [= <-]; reflexivity).
    destruct (dict_get k d); [discriminate|]. intros [= <-]. reflexivity. }
  assert (Hfl : forall x e, py_float x = Raise e ->
                            is_key_type_value_error e = true \/ e = OverflowError).
  { intros x e He. destruct (py_float_errors _ _ He) as [->|[->|[-> _]]]; auto. }
  unfold extract_fields.
  destruct (getitem data "temperature") as [tv|e] eqn:Ht; cbn [mbind result_bind].
  2: { intros [= <-]. left. eauto. }
  destruct (py_float tv) as [t|e] eqn:Hft; cbn [mbind result_bind].
  2: { intros [= <-]. eauto. }
  destruct (getitem data "vibration") as [vv|e] eqn:Hv; cbn [mbind result_bind].
  2: { intros [= <-]. left. eauto. }
  destruct (py_float vv) as [v|e] eqn:Hfv; cbn [mbind result_bind]; [discriminate|].
  intros [= <-]. eauto.
Qed.

(** A payload that does not decode, does not parse, or parses to an object
    without a temperature prints no alert and does not raise. *)
Lemma malformed_payload_is_dropped userdata msg :
  (exists exc, decode_payload msg = Raise exc)
  \/ (exists d, decode_payload msg = Ok (JDict d)
                /\ dict_get "temperature" d = None) ->
  alerts (on_message userdata msg).1 = [] /\ (on_message userdata msg).2 = Returned.
Proof.
  intros H. destruct (userdata_get_model userdata) as [model|] eqn:Hm.
  - destruct H as [[exc Hd] | (d & Hd & Ht)].
    + now rewrite (undecodable_payload_is_dropped userdata msg model Hm exc Hd).
    + now rewrite (invalid_fields_are_dropped userdata msg model Hm (JDict d) KeyError
                     Hd (missing_temperature_raises_KeyError d Ht) eq_refl eq_refl).
  - now rewrite (on_message_no_model userdata msg Hm).
Qed.

(** [int] of a finite float truncates toward zero. *)
Lemma to_int_truncates s m e :
  exists k, PyFloat.to_int (S754_finite s m e) = Ok (cond_Zopp s k)
            /\ magnitude_in_unit_interval m e k.
Proof.
  exists (Z.shiftl (Zpos m) e). split; [reflexivity|].
  unfold magnitude_in_unit_interval.
  destruct (0 <=? e) eqn:He.
  - apply Z.leb_le in He. now rewrite Z.shiftl_mul_pow2.
  - apply Z.leb_gt in He.
    rewrite Z.shiftl_div_pow2 by lia.
    assert (Hp : 0 < 2 ^ (- e)) by (apply Z.pow_pos_nonneg; lia).
    pose proof (Z.mul_div_le (Zpos m) _ Hp).
    pose proof (Z.mul_succ_div_gt (Zpos m) _ Hp).
    lia.
Qed.

(** *** Claims about the handler *)

(** C1, as the specification words it, fails: for the label 1.75 the nearest
    integer is 2, which is not 1, and yet the handler prints the anomaly
    alert, because [int] truncates 1.75 to 1. *)
Lemma nearest_int_rule_fails :
  round_to_nearest_int (SFloat lit_1_75) = Ok 2
  /\ on_message (user_data (stub_classifier (SFloat lit_1_75))) (telemetry "68.0" "1.8")
     = ([CallPredict (build_features Generator.lit_68_0 Generator.lit_1_8);
         Stdout (Alert (anomaly_text Generator.lit_68_0 Generator.lit_1_8))],
        Returned).
Proof. split; vm_compute; reflexivity. Qed.

(** C1 (amended): for every message that parses and whose label [int]
    accepts, the handler calls the classifier's prediction once and prints
    the anomaly alert exactly when [int(prediction)] is 1, the normal line
    for every other value; on a finite float label, [int] truncates toward
    zero. *)
Theorem anomaly_iff_int_cast_is_one :
  forall userdata model msg data t v labels p n,
    userdata_get_model userdata = Some model ->
    decode_payload msg = Ok data ->
    extract_fields data = Ok (t, v) ->
    predict model (build_features t v) = Ok labels ->
    first labels = Ok p ->
    py_int p = Ok n ->
    on_message userdata msg
    = ([CallPredict (build_features t v);
        Stdout (Alert (if n =? 1 then anomaly_text t v else normal_text t v))],
       Returned)
    /\ predict_calls (on_message userdata msg).1 = [build_features t v]
    /\ (forall s m e, p = SFloat (S754_finite s m e) ->
          exists k, n = cond_Zopp s k /\ magnitude_in_unit_interval m e k).
Proof.
  intros userdata model msg data t v labels p n Hm Hd He Hp Hf Hi.
  assert (Hrun : on_message userdata msg
                 = ([CallPredict (build_features t v);
                     Stdout (Alert (if n =? 1 then anomaly_text t v
                                    else normal_text t v))], Returned)).
  { rewrite (on_message_inference userdata msg model Hm data t v Hd He).
    cbn zeta. rewrite Hp. cbn [mbind result_bind]. rewrite Hf, Hi. reflexivity. }
  split; [exact Hrun|]. split; [now rewrite Hrun|].
  intros s m e ->. destruct (to_int_truncates s m e) as (k & Hk & Hmag).
  exists k. split; [|exact Hmag]. cbn [py_int] in Hi. congruence.
Qed.

Lemma anomaly_iff_int_cast_is_one_witness :
  on_message (user_data (stub_classifier (SFloat lit_1_75))) (telemetry "68.0" "1.8")
  = ([CallPredict (build_features Generator.lit_68_0 Generator.lit_1_8);
      Stdout (Alert (anomaly_text Generator.lit_68_0 Generator.lit_1_8))],
     Returned)
  /\ predict_calls
       (on_message (user_data (stub_classifier (SFloat lit_1_75)))
          (telemetry "68.0" "1.8")).1
     = [build_features Generator.lit_68_0 Generator.lit_1_8]
  /\ (forall s m e, SFloat lit_1_75 = SFloat (S754_finite s m e) ->
        exists k, 1 = cond_Zopp s k /\ magnitude_in_unit_interval m e k).
Proof.
  apply (anomaly_iff_int_cast_is_one
           (user_data (stub_classifier (SFloat lit_1_75)))
           (stub_classifier (SFloat lit_1_75))
           (telemetry "68.0" "1.8")
           (JDict [("temperature"%string, JFloat Generator.lit_68_0);
                   ("vibration"%string, JFloat Generator.lit_1_8)])
           Generator.lit_68_0 Generator.lit_1_8
           [SFloat lit_1_75] (SFloat lit_1_75) 1);
    vm_compute; reflexivity.
Defined.

(** C2: on the payload with temperature 95.0 and vibration 4.2, with a stub
    classifier answering 1, the handler prints exactly one line, in the
    anomaly format, which contains 95.00 and 4.20; on the payload with 68.0
    and 1.8, with a stub answering 0, it prints exactly one line, in the
    normal format, which contains 68.00 and 1.80. *)
Theorem stub_alert_lines :
  let hot := on_message (user_data (stub_classifier (SInt 1))) (telemetry "95.0" "4.2") in
  let calm := on_message (user_data (stub_classifier (SInt 0))) (telemetry "68.0" "1.8") in
  (hot.2 = Returned
   /\ exists text, omap (fun ev => match ev with Stdout l => Some l | _ => None end) hot.1
                   = [Alert text]
        /\ anomaly_styled text = true /\ normal_styled text = false
        /\ contains "95.00" text = true /\ contains "4.20" text = true)
  /\ (calm.2 = Returned
      /\ exists text, omap (fun ev => match ev with Stdout l => Some l | _ => None end) calm.1
                      = [Alert text]
           /\ normal_styled text = true /\ anomaly_styled text = false
           /\ contains "68.00" text = true /\ contains "1.80" text = true).
Proof.
  cbv zeta. split; (split; [vm_compute; reflexivity|]).
  - exists (anomaly_text (PyFloat.of_decimal false 950 (-1))
                         (PyFloat.of_decimal false 42 (-1))).
    repeat split; vm_compute; reflexivity.
  - exists (normal_text Generator.lit_68_0 Generator.lit_1_8).
    repeat split; vm_compute; reflexivity.
Qed.

(** C3, at a payload the handler does not survive: the temperature is an
    integer literal of 310 digits, [float] raises [OverflowError], the
    [except] clause names only [KeyError], [TypeError] and [ValueError], and
    the exception leaves the handler; the loop ends and the next message is
    never processed. *)
Theorem overflowing_field_escapes_handler :
  let userdata := user_data (stub_classifier (SInt 0)) in
  let bad := telemetry huge_integer "1.8" in
  decode_payload bad
  = Ok (JDict [("temperature"%string, JInt (10 ^ 309));
               ("vibration"%string, JFloat Generator.lit_1_8)])
  /\ on_message userdata bad = ([], Raised OverflowError)
  /\ dispatch userdata [bad; telemetry "68.0" "1.8"] = ([], Raised OverflowError)
  /\ (dispatch userdata [telemetry "68.0" "1.8"]).2 = Returned.
Proof. cbv zeta. repeat split; vm_compute; reflexivity. Qed.

(** C4: when the classifier's [predict] raises on a message, the handler
    logs the failure, prints no alert line and returns; the messages that
    follow are processed as if they had come alone. *)
Theorem prediction_failure_is_logged_and_dropped :
  forall userdata model msg data t v exc rest,
    userdata_get_model userdata = Some model ->
    decode_payload msg = Ok data ->
    extract_fields data = Ok (t, v) ->
    predict model (build_features t v) = Raise exc ->
    on_message userdata msg
    = ([CallPredict (build_features t v); Stdout (Log (PredictionFailed exc))],
       Returned)
    /\ alerts (on_message userdata msg).1 = []
    /\ dispatch userdata (msg :: rest)
       = ((on_message userdata msg).1 ++ (dispatch userdata rest).1,
          (dispatch userdata rest).2).
Proof.
  intros userdata model msg data t v exc rest Hm Hd He Hp.
  assert (Hrun : on_message userdata msg
                 = ([CallPredict (build_features t v);
                     Stdout (Log (PredictionFailed exc))], Returned)).
  { rewrite (on_message_inference userdata msg model Hm data t v Hd He).
    cbn zeta. now rewrite Hp. }
  split; [exact Hrun|]. split; [now rewrite Hrun|].
  rewrite (dispatch_after_return userdata msg rest _ Hrun). now rewrite Hrun.
Qed.

Lemma prediction_failure_is_logged_and_dropped_witness :
  let userdata := user_data (failing_classifier (OtherError "RuntimeError")) in
  let msg := telemetry "68.0" "1.8" in
  on_message userdata msg
  = ([CallPredict (build_features Generator.lit_68_0 Generator.lit_1_8);
      Stdout (Log (PredictionFailed (OtherError "RuntimeError")))],
     Returned)
  /\ alerts (on_message userdata msg).1 = []
  /\ dispatch userdata [msg; telemetry "95.0" "4.2"]
     = ((on_message userdata msg).1
          ++ (dispatch userdata [telemetry "95.0" "4.2"]).1,
        (dispatch userdata [telemetry "95.0" "4.2"]).2).
Proof.
  cbv zeta.
  apply (prediction_failure_is_logged_and_dropped
           (user_data (failing_classifier (OtherError "RuntimeError")))
           (failing_classifier (OtherError "RuntimeError"))
           (telemetry "68.0" "1.8")
           (JDict [("temperature"%string, JFloat Generator.lit_68_0);
                   ("vibration"%string, JFloat Generator.lit_1_8)])
           Generator.lit_68_0 Generator.lit_1_8
           (OtherError "RuntimeError") [telemetry "95.0" "4.2"]);
    vm_compute; reflexivity.
Defined.

(** C9: when [userdata] has no entry for the model, or holds [None] there,
    the handler prints the diagnostic and returns whatever the message is:
    no alert line, no call to the classifier, nothing raised, and the
    payload plays no part in the result. *)
Theorem missing_model_short_circuits :
  forall (userdata : gmap string pyval) msg,
    userdata !! "model"%string = None \/ userdata !! "model"%string = Some VNone ->
    on_message userdata msg = ([Stdout (Log ModelNotFound)], Returned)
    /\ alerts (on_message userdata msg).1 = []
    /\ predict_calls (on_message userdata msg).1 = []
    /\ forall msg', on_message userdata msg' = on_message userdata msg.
Proof.
  intros userdata msg H.
  assert (Hnone : userdata_get_model userdata = None).
  { unfold userdata_get_model. destruct H as [-> | ->]; reflexivity. }
  assert (Hall : forall m, on_message userdata m = ([Stdout (Log ModelNotFound)], Returned)).
  { intros m. now apply on_message_no_model. }
  rewrite !Hall. repeat split; try reflexivity. intros msg'. now rewrite Hall.
Qed.

Lemma missing_model_short_circuits_witness :
  let userdata : gmap string pyval := {[ "model"%string := VNone ]} in
  let msg := {| topic := TOPIC; payload := [Byte.xff; Byte.x7b] |} in
  on_message userdata msg = ([Stdout (Log ModelNotFound)], Returned)
  /\ alerts (on_message userdata msg).1 = []
  /\ predict_calls (on_message userdata msg).1 = []
  /\ forall msg', on_message userdata msg' = on_message userdata msg.
Proof.
  cbv zeta. apply missing_model_short_circuits. right. vm_compute. reflexivity.
Defined.

(** C10: a payload whose two fields are present and accepted by [float],
    whatever their JSON type, is not dropped as invalid: the handler does on
    it exactly what it does on a payload that carries the converted values
    as JSON numbers, and, the classifier answering with a label [int]
    accepts, that is one call of the classifier on the converted values
    followed by the alert line for them. *)
Theorem float_convertible_fields_are_accepted :
  forall userdata msg msg' d d' tv vv t v,
    decode_payload msg = Ok (JDict d) ->
    dict_get "temperature" d = Some tv -> py_float tv = Ok t ->
    dict_get "vibration" d = Some vv -> py_float vv = Ok v ->
    decode_payload msg' = Ok (JDict d') ->
    dict_get "temperature" d' = Some (JFloat t) ->
    dict_get "vibration" d' = Some (JFloat v) ->
    on_message userdata msg = on_message userdata msg'
    /\ extract_fields (JDict d) = Ok (t, v)
    /\ (forall data exc,
          Stdout (Log (InvalidFields data exc)) ∉ (on_message userdata msg).1)
    /\ forall model labels p n,
         userdata_get_model userdata = Some model ->
         predict model (build_features t v) = Ok labels ->
         first labels = Ok p ->
         py_int p = Ok n ->
         on_message userdata msg
         = ([CallPredict (build_features t v);
             Stdout (Alert (if n =? 1 then anomaly_text t v
                            else normal_text t v))], Returned)
         /\ alerts (on_message userdata msg).1
            = [if n =? 1 then anomaly_text t v else normal_text t v].
Proof.
  intros userdata msg msg' d d' tv vv t v Hd Ht Hft Hv Hfv Hd' Ht' Hv'.
  assert (He : extract_fields (JDict d) = Ok (t, v)).
  { unfold extract_fields. cbn. rewrite Ht. cbn. rewrite Hft. cbn.
    rewrite Hv. cbn. now rewrite Hfv. }
  assert (He' : extract_fields (JDict d') = Ok (t, v)).
  { unfold extract_fields. cbn. rewrite Ht'. cbn. now rewrite Hv'. }
  assert (Heq : on_message userdata msg = on_message userdata msg').
  { unfold on_message. now rewrite Hd, Hd', He, He'. }
  split; [exact Heq|]. split; [exact He|]. split.
  - intros data exc. unfold on_message. rewrite Hd, He.
    destruct (userdata_get_model userdata) as [model|]; cbn.
    + destruct (predict model (build_features t v) ≫= first) as [p|e]; cbn.
      * destruct (py_int p); cbn; not_among_events.
      * not_among_events.
    + not_among_events.
  - intros model labels p n Hmodel Hlabels Hfirst Hint.
    assert (Hrun : on_message userdata msg
                   = ([CallPredict (build_features t v);
                       Stdout (Alert (if n =? 1 then anomaly_text t v
                                      else normal_text t v))], Returned)).
    { rewrite (on_message_inference userdata msg model Hmodel (JDict d) t v Hd He).
      cbv zeta. rewrite Hlabels. cbn. rewrite Hfirst, Hint. reflexivity. }
    split; [exact Hrun|]. rewrite Hrun. reflexivity.
Qed.

Lemma float_convertible_fields_are_accepted_witness :
  let userdata := user_data (stub_classifier (SInt 1)) in
  let msg := telemetry (quoted "95.0") "true" in
  on_message userdata msg = on_message userdata (telemetry "95.0" "1.0")
  /\ extract_fields
       (JDict [("temperature"%string, JStr "95.0"); ("vibration"%string, JBool true)])
     = Ok (PyFloat.of_decimal false 950 (-1), PyFloat.round_of_Z 1)
  /\ (forall data exc,
        Stdout (Log (InvalidFields data exc)) ∉ (on_message userdata msg).1)
  /\ alerts (on_message userdata msg).1
     = [anomaly_text (PyFloat.of_decimal false 950 (-1)) (PyFloat.round_of_Z 1)].
Proof.
  cbv zeta.
  destruct (float_convertible_fields_are_accepted
              (user_data (stub_classifier (SInt 1)))
              (telemetry (quoted "95.0") "true") (telemetry "95.0" "1.0")
              [("temperature"%string, JStr "95.0"); ("vibration"%string, JBool true)]
              [("temperature"%string, JFloat (PyFloat.of_decimal false 950 (-1)));
               ("vibration"%string, JFloat (PyFloat.round_of_Z 1))]
              (JStr "95.0") (JBool true)
              (PyFloat.of_decimal false 950 (-1)) (PyFloat.round_of_Z 1))
    as (Hsame & Hfields & Hkept & Halert);
    try (vm_compute; reflexivity).
  split; [exact Hsame|]. split; [exact Hfields|]. split; [exact Hkept|].
  exact (proj2 (Halert (stub_classifier (SInt 1)) [SInt 1] (SInt 1) 1
                  eq_refl eq_refl eq_refl eq_refl)).
Defined.

(** A numeric string written with the digits of another script is read by
    [float] as well, and gets the alert of the number it denotes. *)
Lemma arabic_indic_reading_is_accepted :
  let userdata := user_data (stub_classifier (SInt 1)) in
  on_message userdata (telemetry (quoted "٩٥.٠") "4.2")
  = on_message userdata (telemetry "95.0" "4.2")
  /\ alerts (on_message userdata (telemetry (quoted "٩٥.٠") "4.2")).1
     = [anomaly_text (PyFloat.of_decimal false 950 (-1))
                     (PyFloat.of_decimal false 42 (-1))].
Proof. vm_compute. split; reflexivity. Qed.

(** ** The data generator *)

(** *** Arrays written by index and by mask *)

Section Arrays.
Import Generator.
Context {A : Type}.
Implicit Types (a : list A) (idx : list nat) (mask : list bool).

Lemma set_at_indices_const_ok a idx (v : A) :
  Forall (fun i => (i < length a)%nat) idx ->
  exists a', set_at_indices_const a idx v = Ok a'
    /\ length a' = length a
    /\ (forall i, i ∈ idx -> a' !! i = Some v)
    /\ (forall i, i ∉ idx -> a' !! i = a !! i).
Proof.
  revert a. induction idx as [|i0 idx IH]; intros a Hin.
  - exists a. split; [reflexivity|]. split; [reflexivity|]. split; [|auto].
    intros i Hi. now apply elem_of_nil in Hi.
  - apply Forall_cons in Hin as [Hi0 Hin]. cbn [set_at_indices_const].
    destruct (Nat.ltb_spec i0 (length a)) as [_|?]; [|lia].
    destruct (IH (<[i0:=v]> a)) as (a' & Hrun & Hlen & Hset & Hkeep).
    { now rewrite length_insert. }
    exists a'. split; [exact Hrun|]. rewrite length_insert in Hlen.
    split; [exact Hlen|]. split.
    + intros i Hi. destruct (decide (i ∈ idx)) as [Hd|Hd]; [now apply Hset|].
      apply elem_of_cons in Hi as [->|Hi]; [|contradiction].
      rewrite (Hkeep _ Hd). now apply list_lookup_insert_eq.
    + intros i Hi. apply not_elem_of_cons in Hi as [Hne Hi].
      rewrite (Hkeep _ Hi). now apply list_lookup_insert_ne.
Qed.

Lemma set_at_indices_ok a idx (vals : list A) :
  Forall (fun i => (i < length a)%nat) idx ->
  length vals = length idx ->
  exists a', set_at_indices a idx vals = Ok a'
    /\ length a' = length a
    /\ (forall i, i ∈ idx -> exists x, a' !! i = Some x /\ x ∈ vals)
    /\ (forall i, i ∉ idx -> a' !! i = a !! i).
Proof.
  revert a vals. induction idx as [|i0 idx IH]; intros a vals Hin Hlen.
  - destruct vals; [|discriminate]. exists a.
    split; [reflexivity|]. split; [reflexivity|]. split; [|auto].
    intros i Hi. now apply elem_of_nil in Hi.
  - destruct vals as [|v vals]; [discriminate|]. injection Hlen as Hlen.
    apply Forall_cons in Hin as [Hi0 Hin]. cbn [set_at_indices].
    destruct (Nat.ltb_spec i0 (length a)) as [_|?]; [|lia].
    destruct (IH (<[i0:=v]> a) vals) as (a' & Hrun & Hlen' & Hset & Hkeep);
      [now rewrite length_insert | exact Hlen |].
    exists a'. split; [exact Hrun|]. rewrite length_insert in Hlen'.
    split; [exact Hlen'|]. split.
    + intros i Hi. destruct (decide (i ∈ idx)) as [Hd|Hd].
      * destruct (Hset _ Hd) as (x & Hx & Hxin). exists x. split; [exact Hx|].
        now apply elem_of_cons; right.
      * apply elem_of_cons in Hi as [->|Hi]; [|contradiction].
        exists v. rewrite (Hkeep _ Hd). split; [now apply list_lookup_insert_eq|].
        now apply elem_of_cons; left.
    + intros i Hi. apply not_elem_of_cons in Hi as [Hne Hi].
      rewrite (Hkeep _ Hi). now apply list_lookup_insert_ne.
Qed.

Lemma set_at_mask_ok a mask (vals : list A) :
  length mask = length a ->
  length vals = mask_sum mask ->
  exists a', set_at_mask a mask vals = Ok a'
    /\ length a' = length a
    /\ (forall i, mask !! i = Some true -> exists x, a' !! i = Some x /\ x ∈ vals)
    /\ (forall i, mask !! i = Some false -> a' !! i = a !! i).
Proof.
  revert mask vals. induction a as [|x a IH]; intros mask vals Hm Hv.
  - destruct mask; [|discriminate]. destruct vals; [|discriminate].
    exists []. split; [reflexivity|]. split; [reflexivity|].
    split; intros i Hi; now rewrite lookup_nil in Hi.
  - destruct mask as [|b mask]; [discriminate|]. injection Hm as Hm.
    destruct b.
    + destruct vals as [|v vals]; [discriminate|].
      unfold mask_sum in Hv. rewrite filter_cons_True in Hv by reflexivity.
      injection Hv as Hv.
      destruct (IH mask vals Hm Hv) as (a' & Hrun & Hlen & Hset & Hkeep).
      exists (v :: a'). cbn [set_at_mask]. rewrite Hrun. split; [reflexivity|].
      split; [cbn; now rewrite Hlen|]. split.
      * intros [|i] Hi.
        -- exists v. split; [reflexivity|]. now apply elem_of_cons; left.
        -- destruct (Hset i Hi) as (y & Hy & Hyin). exists y. split; [exact Hy|].
           now apply elem_of_cons; right.
      * intros [|i] Hi; [discriminate|]. now apply Hkeep.
    + unfold mask_sum in Hv. rewrite filter_cons_False in Hv by discriminate.
      destruct (IH mask vals Hm Hv) as (a' & Hrun & Hlen & Hset & Hkeep).
      exists (x :: a'). cbn [set_at_mask]. rewrite Hrun. split; [reflexivity|].
      split; [cbn; now rewrite Hlen|]. split.
      * intros [|i] Hi; [discriminate|]. now apply Hset.
      * intros [|i] Hi; [reflexivity|]. now apply Hkeep.
Qed.
End Arrays.

(** *** Counting labels *)

Section Labels.
Import Generator.

Lemma ones_insert lab i x :
  lab !! i = Some x -> x <> 1 -> ones (<[i:=1]> lab) = Datatypes.S (ones lab).
Proof.
  unfold ones. revert i. induction lab as [|y lab IH]; intros [|i] Hi Hx;
    try discriminate.
  - injection Hi as ->. cbn [insert list_insert].
    rewrite filter_cons_True by reflexivity.
    now rewrite filter_cons_False by exact Hx.
  - cbn [insert list_insert]. cbn in Hi.
    destruct (decide (y = 1)) as [Hy|Hy].
    + rewrite !filter_cons_True by exact Hy. cbn. f_equal. now apply IH.
    + rewrite !filter_cons_False by exact Hy. now apply IH.
Qed.

Lemma ones_set_at_indices_const lab idx lab' :
  NoDup idx ->
  (forall i, i ∈ idx -> exists x, lab !! i = Some x /\ x <> 1) ->
  set_at_indices_const lab idx 1 = Ok lab' ->
  ones lab' = (ones lab + length idx)%nat.
Proof.
  revert lab. induction idx as [|i0 idx IH]; intros lab Hnd Hzero Hrun.
  - injection Hrun as <-. cbn. lia.
  - apply NoDup_cons in Hnd as [Hfresh Hnd]. cbn [set_at_indices_const] in Hrun.
    destruct (i0 <? length lab)%nat; [|discriminate].
    destruct (Hzero i0) as (x & Hx & Hne); [now apply elem_of_cons; left|].
    rewrite (IH _ Hnd) with (2 := Hrun).
    + rewrite (ones_insert _ _ _ Hx Hne). cbn. lia.
    + intros i Hi. destruct (Hzero i) as (y & Hy & Hney); [now apply elem_of_cons; right|].
      exists y. split; [|exact Hney].
      rewrite list_lookup_insert_ne; [exact Hy|]. intros ->. contradiction.
Qed.

Lemma ones_zeros n : ones (np_zeros n) = 0%nat.
Proof.
  unfold ones, np_zeros. induction n as [|n IH]; [reflexivity|].
  cbn [replicate]. now rewrite filter_cons_False by discriminate.
Qed.

Lemma labelled_length l rows :
  length (labelled l rows) = length (filter (fun x => x = l) (map is_anomaly rows)).
Proof.
  unfold labelled. induction rows as [|r rows IH]; [reflexivity|].
  cbn [map]. destruct (decide (is_anomaly r = l)) as [Hr|Hr].
  - rewrite !filter_cons_True by exact Hr. cbn. now rewrite IH.
  - now rewrite !filter_cons_False by exact Hr.
Qed.
End Labels.

(** *** The frame and its columns *)

Lemma make_frame_ok ts mid temp vib lab :
  length temp = length ts -> length vib = length ts -> length lab = length ts ->
  exists rows, Generator.make_frame ts mid temp vib lab = Ok rows
    /\ map Generator.timestamp rows = ts
    /\ map Generator.temperature rows = temp
    /\ map Generator.vibration rows = vib
    /\ map Generator.is_anomaly rows = lab
    /\ Forall (fun r => Generator.machineId r = mid) rows.
Proof.
  revert temp vib lab. induction ts as [|t ts IH]; intros temp vib lab Ht Hv Hl.
  - destruct temp, vib, lab; try discriminate. exists []. now repeat split.
  - destruct temp as [|x temp], vib as [|y vib], lab as [|l lab]; try discriminate.
    injection Ht as Ht. injection Hv as Hv. injection Hl as Hl.
    destruct (IH temp vib lab Ht Hv Hl) as (rows & Hrun & H1 & H2 & H3 & H4 & H5).
    eexists. cbn [Generator.make_frame]. rewrite Hrun. split; [reflexivity|].
    cbn. rewrite H1, H2, H3, H4. repeat split. now constructor.
Qed.

Lemma date_range_length start n : length (Generator.date_range start n) = n.
Proof. unfold Generator.date_range. now rewrite length_map, length_seq. Qed.

Lemma date_range_lookup start n i :
  (i < n)%nat ->
  Generator.date_range start n !! i = Some (start + Z.of_nat i * Generator.minute).
Proof.
  intros Hi. unfold Generator.date_range.
  rewrite list_lookup_fmap, lookup_seq_lt by exact Hi. reflexivity.
Qed.

(** *** Order facts on floats that need the sign only *)

Lemma clip_min0_nonneg x :
  PyFloat.is_nan x = false -> PyFloat.leb Generator.zero (Generator.clip_min0 x) = true.
Proof. destruct x as [[]|[]| |[] m e]; intros H; try discriminate H; reflexivity. Qed.

Lemma leb_not_nan lo x : PyFloat.leb lo x = true -> PyFloat.is_nan x = false.
Proof. destruct x as [[]|[]| |[] m e]; try reflexivity. now destruct lo as [[]|[]| |[] ? ?]. Qed.

Lemma above_nonneg_not_clipped lo x :
  PyFloat.ltb Generator.zero lo = true -> PyFloat.leb lo x = true ->
  Generator.clip_min0 x = x.
Proof.
  destruct lo as [[]|[]| |[] ml el]; intros Hlo; try discriminate Hlo;
    destruct x as [[]|[]| |[] mx ex]; intros Hx; try discriminate Hx; reflexivity.
Qed.

Lemma leb_refl_of_leb x y : PyFloat.leb x y = true -> PyFloat.leb x x = true.
Proof.
  destruct x as [[]|[]| |[] m e]; intros H; try reflexivity.
  - now destruct y as [[]|[]| |[] ? ?].
  - unfold PyFloat.leb, SFleb. cbn. now rewrite Z.compare_refl, Pos.compare_cont_refl.
  - unfold PyFloat.leb, SFleb. cbn. now rewrite Z.compare_refl, Pos.compare_cont_refl.
Qed.

Lemma n_rows_bounds : (500 <= Generator.n_rows)%nat.
Proof. apply Nat.leb_le. vm_compute. reflexivity. Qed.

Lemma anomaly_count_500 : Generator.anomaly_count_of Generator.n_rows = Ok 500%nat.
Proof. vm_compute. reflexivity. Qed.

Lemma literal_bounds :
  PyFloat.leb Generator.lit_80_0 Generator.lit_100_0 = true
  /\ PyFloat.leb Generator.lit_3_0 Generator.lit_5_0 = true
  /\ PyFloat.ltb Generator.zero Generator.lit_3_0 = true.
Proof. repeat split; vm_compute; reflexivity. Qed.

Lemma fixed_rng_contract : Generator.rng_contract fixed_rng.
Proof.
  split; cbn.
  - intros n k s Hk. rewrite length_seq. split; [reflexivity|]. split.
    + apply NoDup_seq.
    + apply Forall_forall. intros i Hi. apply elem_of_seq in Hi. lia.
  - intros loc scale k s. rewrite repeat_length. split; [reflexivity|].
    apply Forall_forall. intros x Hx. apply list_elem_of_In, repeat_spec in Hx.
    subst x. reflexivity.
  - intros low high k s Hlh. rewrite repeat_length. split; [reflexivity|].
    apply Forall_forall. intros x Hx. apply list_elem_of_In, repeat_spec in Hx.
    subst x. unfold Generator.within. rewrite Hlh, (leb_refl_of_leb _ _ Hlh). reflexivity.
Qed.

(** *** What [main] returns *)

Section MainSpec.
Import Generator.
Context {S : Type} (rng : rng_ops S) (Hrng : rng_contract rng).
Variables (now : Z) (s0 : S) (garbage_t garbage_v : nat -> PyFloat.float).

Local Abbreviation idx := (first_draw rng s0).

Lemma main_spec :
  exists rows vibs,
    main rng now s0 garbage_t garbage_v = Ok rows
    /\ map timestamp rows
       = date_range (truncate_to_minute now - Z.of_nat (n_rows - 1) * minute) n_rows
    /\ length rows = n_rows
    /\ (forall i, i ∈ idx -> map is_anomaly rows !! i = Some 1)
    /\ (forall i, (i < n_rows)%nat -> i ∉ idx -> map is_anomaly rows !! i = Some 0)
    /\ ones (map is_anomaly rows) = 500%nat
    /\ (forall i, i ∈ idx ->
          exists x, map temperature rows !! i = Some x
                    /\ within lit_80_0 lit_100_0 x = true)
    /\ map vibration rows = map clip_min0 vibs
    /\ (forall i, i ∈ idx ->
          exists x, vibs !! i = Some x /\ within lit_3_0 lit_5_0 x = true)
    /\ (forall i, (i < n_rows)%nat -> i ∉ idx ->
          exists x, vibs !! i = Some x /\ PyFloat.is_finite x = true).
Proof.
  destruct literal_bounds as (Hb1 & Hb2 & _).
  destruct (choice_ok rng Hrng n_rows 500 s0 n_rows_bounds) as (Hlen & Hnd & Hrange).
  unfold main, first_draw. rewrite anomaly_count_500. cbn [mbind result_bind].
  destruct (choice rng n_rows 500 s0) as [idx s1]. cbn [fst] in *.
  (* the labels *)
  destruct (set_at_indices_const_ok (np_zeros n_rows) idx 1)
    as (lab & Hlab & Hlablen & Hlab1 & Hlab0).
  { unfold np_zeros. now rewrite length_replicate. }
  unfold np_zeros in Hlablen. rewrite length_replicate in Hlablen.
  rewrite Hlab. cbn [mbind result_bind].
  assert (Hzero : forall i, (i < n_rows)%nat -> i ∉ idx -> lab !! i = Some 0).
  { intros i Hi Hni. rewrite (Hlab0 _ Hni). unfold np_zeros.
    now apply lookup_replicate_2. }
  assert (Hones : ones lab = 500%nat).
  { rewrite (ones_set_at_indices_const _ _ _ Hnd) with (2 := Hlab).
    - now rewrite ones_zeros, Hlen.
    - intros i Hi. exists 0. split; [|discriminate].
      unfold np_zeros. apply lookup_replicate_2.
      now apply (proj1 (Forall_forall _ _) Hrange). }
  set (mask := map (fun l => l =? 0) lab).
  assert (Hmasklen : length mask = n_rows) by (unfold mask; now rewrite length_map).
  assert (Hmask1 : forall i, i ∈ idx -> mask !! i = Some false).
  { intros i Hi. unfold mask. rewrite list_lookup_fmap, (Hlab1 _ Hi). reflexivity. }
  assert (Hmask0 : forall i, (i < n_rows)%nat -> i ∉ idx -> mask !! i = Some true).
  { intros i Hi Hni. unfold mask. rewrite list_lookup_fmap, (Hzero _ Hi Hni). reflexivity. }
  (* the normal readings *)
  destruct (normal rng lit_68_0 lit_3_0 (mask_sum mask) s1) as [nt s2] eqn:Hnt.
  pose proof (normal_ok rng Hrng lit_68_0 lit_3_0 (mask_sum mask) s1) as [Hntlen _].
  rewrite Hnt in Hntlen. cbn [fst] in Hntlen.
  destruct (set_at_mask_ok (np_empty garbage_t n_rows) mask nt)
    as (temp1 & Ht1 & Ht1len & _ & _).
  { unfold np_empty. now rewrite length_map, length_seq. }
  { exact Hntlen. }
  rewrite Ht1. cbn [mbind result_bind].
  destruct (normal rng lit_1_8 lit_0_3 (mask_sum mask) s2) as [nv s3] eqn:Hnv.
  pose proof (normal_ok rng Hrng lit_1_8 lit_0_3 (mask_sum mask) s2) as [Hnvlen Hnvfin].
  rewrite Hnv in Hnvlen, Hnvfin. cbn [fst] in Hnvlen, Hnvfin.
  destruct (set_at_mask_ok (np_empty garbage_v n_rows) mask nv)
    as (vib1 & Hv1 & Hv1len & Hv1set & _).
  { unfold np_empty. now rewrite length_map, length_seq. }
  { exact Hnvlen. }
  rewrite Hv1. cbn [mbind result_bind].
  unfold np_empty in Ht1len, Hv1len. rewrite length_map, length_seq in Ht1len, Hv1len.
  (* the spikes *)
  destruct (uniform rng lit_80_0 lit_100_0 500 s3) as [ut s4] eqn:Hut.
  pose proof (uniform_ok rng Hrng lit_80_0 lit_100_0 500 s3 Hb1) as [Hutlen Hutin].
  rewrite Hut in Hutlen, Hutin. cbn [fst] in Hutlen, Hutin.
  destruct (set_at_indices_ok temp1 idx ut) as (temp2 & Ht2 & Ht2len & Ht2set & _).
  { now rewrite Ht1len. }
  { now rewrite Hutlen, Hlen. }
  rewrite Ht2. cbn [mbind result_bind].
  destruct (uniform rng lit_3_0 lit_5_0 500 s4) as [uv s5] eqn:Huv.
  pose proof (uniform_ok rng Hrng lit_3_0 lit_5_0 500 s4 Hb2) as [Huvlen Huvin].
  rewrite Huv in Huvlen, Huvin. cbn [fst] in Huvlen, Huvin.
  destruct (set_at_indices_ok vib1 idx uv) as (vib2 & Hv2 & Hv2len & Hv2set & Hv2keep).
  { now rewrite Hv1len. }
  { now rewrite Huvlen, Hlen. }
  rewrite Hv2. cbn [mbind result_bind].
  (* the frame *)
  destruct (make_frame_ok
              (date_range (truncate_to_minute now - Z.of_nat (n_rows - 1) * minute) n_rows)
              machine_id temp2 (map clip_min0 vib2) lab)
    as (rows & Hrows & Hts & Htemp & Hvib & Hl & _).
  { now rewrite date_range_length, Ht2len. }
  { now rewrite length_map, date_range_length, Hv2len. }
  { now rewrite date_range_length. }
  exists rows, vib2. split; [exact Hrows|]. split; [exact Hts|].
  split. { rewrite <- (length_map timestamp), Hts. apply date_range_length. }
  rewrite Hl, Htemp, Hvib.
  split; [exact Hlab1|]. split; [exact Hzero|]. split; [exact Hones|].
  split.
  { intros i Hi. destruct (Ht2set _ Hi) as (x & Hx & Hxin). exists x.
    split; [exact Hx|]. now apply (proj1 (Forall_forall _ _) Hutin). }
  split; [reflexivity|]. split.
  { intros i Hi. destruct (Hv2set _ Hi) as (x & Hx & Hxin). exists x.
    split; [exact Hx|]. now apply (proj1 (Forall_forall _ _) Huvin). }
  intros i Hi Hni. rewrite (Hv2keep _ Hni).
  destruct (Hv1set _ (Hmask0 _ Hi Hni)) as (x & Hx & Hxin). exists x.
  split; [exact Hx|]. now apply (proj1 (Forall_forall _ _) Hnvfin).
Qed.
End MainSpec.

(** The bounds of the spikes are the integers 80, 100, 3 and 5. *)
Lemma spike_bounds :
  Generator.lit_80_0 = PyFloat.round_of_Z 80
  /\ Generator.lit_100_0 = PyFloat.round_of_Z 100
  /\ Generator.lit_3_0 = PyFloat.round_of_Z 3
  /\ Generator.lit_5_0 = PyFloat.round_of_Z 5.
Proof. repeat split; vm_compute; reflexivity. Qed.

(** *** Claims about the generator *)

Section GeneratorClaims.
Import Generator.
Context {S : Type} (rng : rng_ops S) (Hrng : rng_contract rng).
Variables (now : Z) (s0 : S) (garbage_t garbage_v : nat -> PyFloat.float).

Local Abbreviation idx := (first_draw rng s0).

(** The label of a row tells whether its index was drawn. *)
Lemma label_of_row rows :
  length rows = n_rows ->
  (forall i, i ∈ idx -> map is_anomaly rows !! i = Some 1) ->
  (forall i, (i < n_rows)%nat -> i ∉ idx -> map is_anomaly rows !! i = Some 0) ->
  forall i r, rows !! i = Some r -> (is_anomaly r = 1 <-> i ∈ idx).
Proof.
  intros Hlen H1 H0 i r Hr.
  assert (Hl : map is_anomaly rows !! i = Some (is_anomaly r))
    by (now rewrite list_lookup_fmap, Hr).
  assert (Hi : (i < n_rows)%nat) by (rewrite <- Hlen; eapply lookup_lt_Some; eauto).
  destruct (decide (i ∈ idx)) as [Hin|Hin].
  - rewrite (H1 _ Hin) in Hl. injection Hl as <-. tauto.
  - rewrite (H0 _ Hi Hin) in Hl. injection Hl as <-. split; [discriminate|tauto].
Qed.

(** C5: the program computes [int(round(10000 * 0.05))] as 500, and in the
    frame it returns the rows labelled 1 are exactly 500: they are the rows
    whose index is in the first draw of the generator, a sample of 500
    distinct indices made on the initial state, before any reading is
    drawn. *)
Theorem anomaly_rows_are_exactly_500 :
  anomaly_count_of n_rows = Ok 500%nat
  /\ exists rows,
       main rng now s0 garbage_t garbage_v = Ok rows
       /\ length (labelled 1 rows) = 500%nat
       /\ NoDup idx /\ length idx = 500%nat
       /\ forall i r, rows !! i = Some r -> (is_anomaly r = 1 <-> i ∈ idx).
Proof.
  split; [exact anomaly_count_500|].
  destruct (main_spec rng Hrng now s0 garbage_t garbage_v)
    as (rows & vibs & Hrun & _ & Hlen & H1 & H0 & Hones & _).
  destruct (choice_ok rng Hrng n_rows 500 s0 n_rows_bounds) as (Hil & Hnd & _).
  exists rows. split; [exact Hrun|]. split; [now rewrite labelled_length|].
  split; [exact Hnd|]. split; [exact Hil|]. now apply label_of_row.
Qed.

(** C6: in the frame the program returns, every row labelled 1 has its
    temperature between 80 and 100 and its vibration between 3 and 5,
    whatever the generator draws within its contract. *)
Theorem anomalous_rows_within_spike_ranges :
  exists rows,
    main rng now s0 garbage_t garbage_v = Ok rows
    /\ forall r, r ∈ rows -> is_anomaly r = 1 ->
         within lit_80_0 lit_100_0 (temperature r) = true
         /\ within lit_3_0 lit_5_0 (vibration r) = true.
Proof.
  destruct (main_spec rng Hrng now s0 garbage_t garbage_v)
    as (rows & vibs & Hrun & _ & Hlen & H1 & H0 & _ & Ht & Hv & Hspike & _).
  destruct literal_bounds as (_ & _ & H03).
  exists rows. split; [exact Hrun|]. intros r Hr Hlab.
  apply list_elem_of_lookup in Hr as [i Hi].
  assert (Hin : i ∈ idx) by (now apply (label_of_row rows Hlen H1 H0 i r Hi)).
  split.
  - destruct (Ht _ Hin) as (x & Hx & Hwx).
    rewrite list_lookup_fmap, Hi in Hx. injection Hx as <-. exact Hwx.
  - destruct (Hspike _ Hin) as (x & Hx & Hwx).
    assert (Hvr : map vibration rows !! i = Some (vibration r))
      by (now rewrite list_lookup_fmap, Hi).
    rewrite Hv, list_lookup_fmap, Hx in Hvr. injection Hvr as Hvr.
    rewrite <- Hvr. unfold within in Hwx. apply andb_prop in Hwx as Hsplit.
    now rewrite (above_nonneg_not_clipped lit_3_0 x H03 (proj1 Hsplit)).
Qed.

(** C7: the frame has 10000 rows; each timestamp is one minute after the
    one before, so they strictly increase; the last one is the anchor, the
    clock reading truncated to the minute. *)
Theorem timestamps_are_minute_spaced :
  exists rows,
    main rng now s0 garbage_t garbage_v = Ok rows
    /\ Z.of_nat (length rows) = 10000
    /\ (forall i r r', rows !! i = Some r -> rows !! Datatypes.S i = Some r' ->
          timestamp r' = timestamp r + minute)
    /\ (forall i j r r', (i < j)%nat -> rows !! i = Some r -> rows !! j = Some r' ->
          timestamp r < timestamp r')
    /\ (exists r, last rows = Some r /\ timestamp r = truncate_to_minute now)
    /\ truncate_to_minute now mod minute = 0
    /\ 0 <= now - truncate_to_minute now < minute.
Proof.
  destruct (main_spec rng Hrng now s0 garbage_t garbage_v)
    as (rows & vibs & Hrun & Hts & Hlen & _).
  pose proof n_rows_bounds as Hn.
  assert (Hat : forall i r, rows !! i = Some r ->
            timestamp r
            = truncate_to_minute now - Z.of_nat (n_rows - 1) * minute
              + Z.of_nat i * minute).
  { intros i r Hr.
    assert (Hi : (i < n_rows)%nat) by (rewrite <- Hlen; eapply lookup_lt_Some; eauto).
    assert (Hl : map timestamp rows !! i = Some (timestamp r))
      by (now rewrite list_lookup_fmap, Hr).
    rewrite Hts, (date_range_lookup _ _ _ Hi) in Hl. now injection Hl. }
  exists rows. split; [exact Hrun|].
  split. { rewrite Hlen. vm_compute. reflexivity. }
  split. { intros i r r' Hr Hr'. rewrite (Hat _ _ Hr), (Hat _ _ Hr'). lia. }
  split. { intros i j r r' Hij Hr Hr'. rewrite (Hat _ _ Hr), (Hat _ _ Hr').
           unfold minute. lia. }
  split.
  { rewrite last_lookup, Hlen.
    destruct (rows !! pred n_rows) as [r|] eqn:Hr.
    - exists r. split; [reflexivity|]. rewrite (Hat _ _ Hr).
      replace (pred n_rows) with (n_rows - 1)%nat by lia. lia.
    - apply lookup_ge_None in Hr. lia. }
  unfold truncate_to_minute, minute.
  pose proof (Z.mod_pos_bound now 60000000 ltac:(lia)) as Hm.
  split; [|lia].
  rewrite Zminus_mod, Zmod_mod, Z.sub_diag. reflexivity.
Qed.

(** C8: in the frame the program returns, every vibration is the clamp of
    a drawn value and is at least zero, for the rows of both labels. *)
Theorem vibration_is_never_negative :
  exists rows,
    main rng now s0 garbage_t garbage_v = Ok rows
    /\ forall r, r ∈ rows ->
         PyFloat.leb zero (vibration r) = true
         /\ (is_anomaly r = 0 \/ is_anomaly r = 1)
         /\ exists x, vibration r = clip_min0 x.
Proof.
  destruct (main_spec rng Hrng now s0 garbage_t garbage_v)
    as (rows & vibs & Hrun & _ & Hlen & H1 & H0 & _ & _ & Hv & Hspike & Hcalm).
  exists rows. split; [exact Hrun|]. intros r Hr.
  apply list_elem_of_lookup in Hr as [i Hi].
  assert (Hlt : (i < n_rows)%nat) by (rewrite <- Hlen; eapply lookup_lt_Some; eauto).
  assert (Hvr : map vibration rows !! i = Some (vibration r))
    by (now rewrite list_lookup_fmap, Hi).
  assert (Hl : map is_anomaly rows !! i = Some (is_anomaly r))
    by (now rewrite list_lookup_fmap, Hi).
  rewrite Hv, list_lookup_fmap in Hvr.
  destruct (decide (i ∈ idx)) as [Hin|Hin].
  - destruct (Hspike _ Hin) as (x & Hx & Hwx). rewrite Hx in Hvr.
    injection Hvr as Hvr. rewrite (H1 _ Hin) in Hl. injection Hl as Hl.
    unfold within in Hwx. apply andb_prop in Hwx as [Hlo _].
    split; [|split; [now right | now exists x]].
    rewrite <- Hvr. apply clip_min0_nonneg. now apply (leb_not_nan lit_3_0).
  - destruct (Hcalm _ Hlt Hin) as (x & Hx & Hfin). rewrite Hx in Hvr.
    injection Hvr as Hvr. rewrite (H0 _ Hlt Hin) in Hl. injection Hl as Hl.
    split; [|split; [now left | now exists x]].
    rewrite <- Hvr. apply clip_min0_nonneg. now destruct x.
Qed.
End GeneratorClaims.

(** *** The claims at a concrete generator and clock *)

Lemma anomaly_rows_are_exactly_500_witness :
  Generator.rng_contract fixed_rng
  /\ Generator.anomaly_count_of Generator.n_rows = Ok 500%nat
  /\ exists rows,
       Generator.main fixed_rng 1700000012345678 tt nan_garbage nan_garbage = Ok rows
       /\ length (labelled 1 rows) = 500%nat
       /\ NoDup (first_draw fixed_rng tt) /\ length (first_draw fixed_rng tt) = 500%nat
       /\ forall i r, rows !! i = Some r ->
            (Generator.is_anomaly r = 1 <-> i ∈ first_draw fixed_rng tt).
Proof.
  split; [exact fixed_rng_contract|].
  exact (anomaly_rows_are_exactly_500 fixed_rng fixed_rng_contract
           1700000012345678 tt nan_garbage nan_garbage).
Defined.

Lemma anomalous_rows_within_spike_ranges_witness :
  Generator.rng_contract fixed_rng
  /\ exists rows,
       Generator.main fixed_rng 1700000012345678 tt nan_garbage nan_garbage = Ok rows
       /\ forall r, r ∈ rows -> Generator.is_anomaly r = 1 ->
            Generator.within Generator.lit_80_0 Generator.lit_100_0
              (Generator.temperature r) = true
            /\ Generator.within Generator.lit_3_0 Generator.lit_5_0
                 (Generator.vibration r) = true.
Proof.
  split; [exact fixed_rng_contract|].
  exact (anomalous_rows_within_spike_ranges fixed_rng fixed_rng_contract
           1700000012345678 tt nan_garbage nan_garbage).
Defined.

Lemma timestamps_are_minute_spaced_witness :
  Generator.rng_contract fixed_rng
  /\ exists rows,
       Generator.main fixed_rng 1700000012345678 tt nan_garbage nan_garbage = Ok rows
       /\ Z.of_nat (length rows) = 10000
       /\ (forall i r r', rows !! i = Some r -> rows !! Datatypes.S i = Some r' ->
             Generator.timestamp r' = Generator.timestamp r + Generator.minute)
       /\ (forall i j r r', (i < j)%nat -> rows !! i = Some r -> rows !! j = Some r' ->
             Generator.timestamp r < Generator.timestamp r')
       /\ (exists r, last rows = Some r
                     /\ Generator.timestamp r
                        = Generator.truncate_to_minute 1700000012345678)
       /\ Generator.truncate_to_minute 1700000012345678 mod Generator.minute = 0
       /\ 0 <= 1700000012345678 - Generator.truncate_to_minute 1700000012345678
            < Generator.minute.
Proof.
  split; [exact fixed_rng_contract|].
  exact (timestamps_are_minute_spaced fixed_rng fixed_rng_contract
           1700000012345678 tt nan_garbage nan_garbage).
Defined.

Lemma vibration_is_never_negative_witness :
  Generator.rng_contract fixed_rng
  /\ exists rows,
       Generator.main fixed_rng 1700000012345678 tt nan_garbage nan_garbage = Ok rows
       /\ forall r, r ∈ rows ->
            PyFloat.leb Generator.zero (Generator.vibration r) = true
            /\ (Generator.is_anomaly r = 0 \/ Generator.is_anomaly r = 1)
            /\ exists x, Generator.vibration r = Generator.clip_min0 x.
Proof.
  split; [exact fixed_rng_contract|].
  exact (vibration_is_never_negative fixed_rng fixed_rng_contract
           1700000012345678 tt nan_garbage nan_garbage).
Defined.

(** ** More about the handler *)

(** X1: a run of the handler that returns has printed exactly one line, an
    alert or a diagnostic; a run that raises has printed nothing; and no run
    calls the classifier more than once. *)
Theorem one_line_per_message :
  forall userdata msg,
    ((on_message userdata msg).2 = Returned ->
       length (printed (on_message userdata msg).1) = 1%nat)
    /\ (forall e, (on_message userdata msg).2 = Raised e ->
          printed (on_message userdata msg).1 = [])
    /\ (length (predict_calls (on_message userdata msg).1) <= 1)%nat
    /\ (length (alerts (on_message userdata msg).1) <= 1)%nat.
Proof.
  intros userdata msg. unfold on_message.
  destruct (userdata_get_model userdata) as [model|]; [|cbn; repeat split; (discriminate || lia)].
  destruct (decode_payload msg) as [data|exc]; [|cbn; repeat split; (discriminate || lia)].
  destruct (extract_fields data) as [[t v]|exc].
  - cbv zeta.
    destruct (predict model (build_features t v) ≫= first) as [p|exc];
      [|cbn; repeat split; (discriminate || lia)].
    destruct (py_int p) as [n|exc]; cbn; repeat split; (discriminate || lia).
  - destruct (is_key_type_value_error exc), (printable data); cbn; repeat split;
      (discriminate || lia).
Qed.

(** The exceptions [int] raises on a label. *)
Lemma py_int_errors p e :
  py_int p = Raise e -> e = TypeError \/ e = ValueError \/ e = OverflowError.
Proof.
  destruct p as [n|x|b|s|]; cbn; try discriminate.
  - destruct x as [?|?| |? ? ?]; cbn; intros [= <-]; auto.
  - unfold int_of_string.
    repeat match goal with
           | |- context [match ?t with _ => _ end] => destruct t
           end; intros [= <-]; auto.
  - intros [= <-]; auto.
Qed.

(** X2: on a console that encodes in UTF-8, the handler lets an exception
    out in three cases only: a field is an [int] too large for [float]
    ([OverflowError]); the payload is a JSON string that holds a lone
    surrogate, whose diagnostic [print] cannot encode
    ([UnicodeEncodeError]); or the classifier answered and [int] refuses its
    first label.  A payload that does not decode, a missing field, a field
    of the wrong type in an object and a failing classifier never make it
    raise. *)
Theorem on_message_raises_iff :
  forall userdata msg e,
    (on_message userdata msg).2 = Raised e <->
    exists model data,
      userdata_get_model userdata = Some model
      /\ decode_payload msg = Ok data
      /\ ((extract_fields data = Raise e /\ e = OverflowError)
          \/ (exists s, data = JStr s /\ has_lone_surrogate s = true
                        /\ e = UnicodeEncodeError)
          \/ exists t v p,
               extract_fields data = Ok (t, v)
               /\ predict model (build_features t v) ≫= first = Ok p
               /\ py_int p = Raise e).
Proof.
  intros userdata msg e. unfold on_message. split.
  - destruct (userdata_get_model userdata) as [model|]; [|discriminate].
    destruct (decode_payload msg) as [data|exc]; [|discriminate].
    destruct (extract_fields data) as [[t v]|exc] eqn:He.
    + cbv zeta.
      destruct (predict model (build_features t v) ≫= first) as [p|exc] eqn:Hp;
        [|discriminate].
      destruct (py_int p) as [n|exc] eqn:Hi; [discriminate|].
      cbn. intros [= <-]. exists model, data. split; [reflexivity|].
      split; [reflexivity|]. right. right. exists t, v, p. auto.
    + destruct (is_key_type_value_error exc) eqn:Hk.
      * destruct (printable data) eqn:Hpr; [discriminate|].
        cbn. intros [= <-]. exists model, data. split; [reflexivity|].
        split; [reflexivity|]. right. left.
        destruct data as [| | | |s| |]; try discriminate Hpr.
        exists s. split; [reflexivity|]. split; [|reflexivity].
        cbn in Hpr. now destruct (has_lone_surrogate s).
      * cbn. intros [= <-]. exists model, data. split; [reflexivity|].
        split; [reflexivity|]. left. split; [exact He|].
        destruct (extract_fields_errors _ _ He) as [Hc| ->]; [congruence|reflexivity].
  - intros (model & data & -> & -> & [[-> ->] | [(s & -> & Hs & ->) | (t & v & p & -> & Hp & Hi)]]).
    + reflexivity.
    + cbn. rewrite Hs. reflexivity.
    + cbv zeta. rewrite Hp, Hi. reflexivity.
Qed.

(** X3: the classifier is called exactly when the model is there and the two
    fields were extracted, and then once, on a frame of two columns,
    temperature then vibration, of one value each: the converted fields. *)
Theorem classifier_called_iff_fields_extracted :
  forall userdata msg,
    predict_calls (on_message userdata msg).1
    = match userdata_get_model userdata, decode_payload msg ≫= extract_fields with
      | Some _, Ok (t, v) => [[("temperature"%string, [t]); ("vibration"%string, [v])]]
      | _, _ => []
      end.
Proof.
  intros userdata msg. unfold on_message.
  destruct (userdata_get_model userdata) as [model|]; [|reflexivity].
  destruct (decode_payload msg) as [data|exc]; [|reflexivity].
  cbn [mbind result_bind].
  destruct (extract_fields data) as [[t v]|exc].
  - cbv zeta.
    destruct (predict model (build_features t v) ≫= first) as [p|exc]; [|reflexivity].
    destruct (py_int p); reflexivity.
  - destruct (is_key_type_value_error exc), (printable data); reflexivity.
Qed.

(** X4: a payload that is valid JSON but no object (a list, a number, a
    string, a boolean, null) never reaches the classifier,
    [data["temperature"]] raising [TypeError].  It is dropped with the
    diagnostic of the invalid fields, except when it is a string that holds
    a lone surrogate: the [print] of the diagnostic then raises
    [UnicodeEncodeError], nothing is printed and the exception leaves the
    handler. *)
Theorem non_object_payload_is_dropped :
  forall userdata model msg data,
    userdata_get_model userdata = Some model ->
    decode_payload msg = Ok data ->
    (forall d, data <> JDict d) ->
    extract_fields data = Raise TypeError
    /\ on_message userdata msg
       = (if printable data
          then ([Stdout (Log (InvalidFields data TypeError))], Returned)
          else ([], Raised UnicodeEncodeError))
    /\ (printable data = false <->
          exists s, data = JStr s /\ has_lone_surrogate s = true).
Proof.
  intros userdata model msg data Hm Hd Hnd.
  assert (He : extract_fields data = Raise TypeError).
  { unfold extract_fields. destruct data; try reflexivity. now destruct (Hnd d). }
  split; [exact He|]. split.
  - destruct (printable data) eqn:Hp.
    + now apply (invalid_fields_are_dropped userdata msg model Hm data TypeError Hd He).
    + now apply (unprintable_data_escapes userdata msg model Hm data TypeError Hd He).
  - split.
    + destruct data as [| | | |s| |]; try discriminate. cbn. intros Hp.
      exists s. split; [reflexivity|]. now destruct (has_lone_surrogate s).
    + intros (s & -> & Hs). cbn. now rewrite Hs.
Qed.

Lemma non_object_payload_is_dropped_witness :
  let userdata := user_data (stub_classifier (SInt 1)) in
  let msg := {| topic := TOPIC; payload := list_byte_of_string " [95.0, 4.2] " |} in
  let bad := {| topic := TOPIC; payload := list_byte_of_string (quoted "\ud800") |} in
  on_message userdata msg
  = ([Stdout (Log (InvalidFields
                     (JList [JFloat (PyFloat.of_decimal false 950 (-1));
                             JFloat (PyFloat.of_decimal false 42 (-1))])
                     TypeError))], Returned)
  /\ on_message userdata bad = ([], Raised UnicodeEncodeError).
Proof.
  cbv zeta. split.
  - apply (proj1 (proj2 (non_object_payload_is_dropped
             (user_data (stub_classifier (SInt 1))) (stub_classifier (SInt 1))
             {| topic := TOPIC; payload := list_byte_of_string " [95.0, 4.2] " |}
             (JList [JFloat (PyFloat.of_decimal false 950 (-1));
                     JFloat (PyFloat.of_decimal false 42 (-1))])
             ltac:(vm_compute; reflexivity) ltac:(vm_compute; reflexivity)
             ltac:(discriminate)))).
  - apply (proj1 (proj2 (non_object_payload_is_dropped
             (user_data (stub_classifier (SInt 1))) (stub_classifier (SInt 1))
             {| topic := TOPIC; payload := list_byte_of_string (quoted "\ud800") |}
             (JStr (utf8_encode 55296))
             ltac:(vm_compute; reflexivity) ltac:(vm_compute; reflexivity)
             ltac:(discriminate)))).
Defined.

(** X5: only the two fields count.  Two payloads that decode to objects with
    the same temperature entry and the same vibration entry, whatever else
    they hold and in whatever order, get the same alert, the same call to
    the classifier and the same outcome. *)
Theorem other_fields_are_ignored :
  forall userdata msg msg' d d',
    decode_payload msg = Ok (JDict d) ->
    decode_payload msg' = Ok (JDict d') ->
    dict_get "temperature" d = dict_get "temperature" d' ->
    dict_get "vibration" d = dict_get "vibration" d' ->
    alerts (on_message userdata msg).1 = alerts (on_message userdata msg').1
    /\ predict_calls (on_message userdata msg).1
       = predict_calls (on_message userdata msg').1
    /\ (on_message userdata msg).2 = (on_message userdata msg').2.
Proof.
  intros userdata msg msg' d d' Hd Hd' Ht Hv.
  assert (He : extract_fields (JDict d) = extract_fields (JDict d')).
  { unfold extract_fields, getitem. now rewrite Ht, Hv. }
  unfold on_message. rewrite Hd, Hd', He.
  destruct (userdata_get_model userdata) as [model|]; [|now repeat split].
  destruct (extract_fields (JDict d')) as [[t v]|exc]; [now repeat split|].
  cbn [printable]. destruct (is_key_type_value_error exc); now repeat split.
Qed.

Lemma other_fields_are_ignored_witness :
  let userdata := user_data (stub_classifier (SInt 1)) in
  let msg := telemetry "95.0" "4.2" in
  let msg' :=
    {| topic := TOPIC;
       payload := list_byte_of_string
         (concat_str [ "{"; quoted "vibration"; ":4.2,"; quoted "machineId"; ":";
                       quoted "NC_Machine_AC"; ","; quoted "temperature";
                       ":95.0}" ]%string) |} in
  alerts (on_message userdata msg).1 = alerts (on_message userdata msg').1
  /\ predict_calls (on_message userdata msg).1
     = predict_calls (on_message userdata msg').1
  /\ (on_message userdata msg).2 = (on_message userdata msg').2.
Proof.
  cbv zeta.
  apply (other_fields_are_ignored _ _ _
           [("temperature"%string, JFloat (PyFloat.of_decimal false 950 (-1)));
            ("vibration"%string, JFloat (PyFloat.of_decimal false 42 (-1)))]
           [("vibration"%string, JFloat (PyFloat.of_decimal false 42 (-1)));
            ("machineId"%string, JStr "NC_Machine_AC");
            ("temperature"%string, JFloat (PyFloat.of_decimal false 950 (-1)))]);
    vm_compute; reflexivity.
Defined.

(** *** The two alert formats *)

Lemma prefix_append p s : String.prefix p (String.append p s) = true.
Proof.
  induction p as [|a p IH]; [now destruct s|].
  change (String.append (String a p) s) with (String a (String.append p s)).
  cbn [String.prefix]. destruct (ascii_dec a a); [exact IH|congruence].
Qed.

Lemma contains_here sub s : contains sub (String.append sub s) = true.
Proof.
  destruct (String.append sub s) eqn:E; cbn [contains];
    rewrite <- E, prefix_append; reflexivity.
Qed.

Lemma contains_append_l a sub s :
  contains sub s = true -> contains sub (String.append a s) = true.
Proof.
  intros H. induction a as [|c a IH]; [exact H|].
  change (String.append (String c a) s) with (String c (String.append a s)).
  change (contains sub (String c (String.append a s)))
    with (String.prefix sub (String c (String.append a s))
          || contains sub (String.append a s)).
  rewrite IH. apply orb_true_r.
Qed.

(** X6: whatever the two readings, the anomaly line starts with the red bold
    alarm marker and the normal line with the green marker, neither starts
    with the marker of the other, and both hold the two readings in their
    two-decimal form. *)
Theorem alert_formats :
  forall t v,
    (anomaly_styled (anomaly_text t v) = true
     /\ normal_styled (anomaly_text t v) = false
     /\ contains (PyFloat.format_2f t) (anomaly_text t v) = true
     /\ contains (PyFloat.format_2f v) (anomaly_text t v) = true)
    /\ (normal_styled (normal_text t v) = true
        /\ anomaly_styled (normal_text t v) = false
        /\ contains (PyFloat.format_2f t) (normal_text t v) = true
        /\ contains (PyFloat.format_2f v) (normal_text t v) = true).
Proof.
  intros t v. split.
  - split; [reflexivity|]. split; [reflexivity|].
    unfold anomaly_text, concat_str. cbn [fold_right]. split.
    + do 4 apply contains_append_l. apply contains_here.
    + do 6 apply contains_append_l. apply contains_here.
  - split; [reflexivity|]. split; [reflexivity|].
    unfold normal_text, concat_str. cbn [fold_right]. split.
    + do 5 apply contains_append_l. apply contains_here.
    + do 7 apply contains_append_l. apply contains_here.
Qed.

(** X7: of the array the classifier returns only the first label counts, the
    handler doing what it does with a classifier that answers that label
    alone; an empty array is logged as a failed prediction ([IndexError])
    and the message is dropped. *)
Theorem first_label_decides :
  forall userdata model msg data t v,
    userdata_get_model userdata = Some model ->
    decode_payload msg = Ok data ->
    extract_fields data = Ok (t, v) ->
    (predict model (build_features t v) = Ok [] ->
       on_message userdata msg
       = ([CallPredict (build_features t v);
           Stdout (Log (PredictionFailed IndexError))], Returned))
    /\ (forall p others,
          predict model (build_features t v) = Ok (p :: others) ->
          on_message userdata msg
          = on_message (user_data (stub_classifier p)) msg).
Proof.
  intros userdata model msg data t v Hm Hd He.
  rewrite (on_message_inference userdata msg model Hm data t v Hd He). cbv zeta.
  split.
  - intros ->. reflexivity.
  - intros p others ->.
    assert (Hs : userdata_get_model (user_data (stub_classifier p))
                 = Some (stub_classifier p)).
    { unfold userdata_get_model, user_data. now rewrite lookup_singleton_eq. }
    rewrite (on_message_inference _ msg _ Hs data t v Hd He). reflexivity.
Qed.

Lemma first_label_decides_witness :
  let model := {| predict := fun _ => Ok [SInt 0; SInt 1; SInt 1] |} in
  let hollow := {| predict := fun _ => Ok [] |} in
  let msg := telemetry "95.0" "4.2" in
  on_message (user_data hollow) msg
  = ([CallPredict (build_features (PyFloat.of_decimal false 950 (-1))
                                  (PyFloat.of_decimal false 42 (-1)));
      Stdout (Log (PredictionFailed IndexError))], Returned)
  /\ on_message (user_data model) msg
     = on_message (user_data (stub_classifier (SInt 0))) msg.
Proof.
  cbv zeta. split.
  - apply (first_label_decides (user_data {| predict := fun _ => Ok [] |})
             {| predict := fun _ => Ok [] |} (telemetry "95.0" "4.2")
             (JDict [("temperature"%string, JFloat (PyFloat.of_decimal false 950 (-1)));
                     ("vibration"%string, JFloat (PyFloat.of_decimal false 42 (-1)))])
             (PyFloat.of_decimal false 950 (-1)) (PyFloat.of_decimal false 42 (-1)));
      vm_compute; reflexivity.
  - apply (first_label_decides
             (user_data {| predict := fun _ => Ok [SInt 0; SInt 1; SInt 1] |})
             {| predict := fun _ => Ok [SInt 0; SInt 1; SInt 1] |}
             (telemetry "95.0" "4.2")
             (JDict [("temperature"%string, JFloat (PyFloat.of_decimal false 950 (-1)));
                     ("vibration"%string, JFloat (PyFloat.of_decimal false 42 (-1)))])
             (PyFloat.of_decimal false 950 (-1)) (PyFloat.of_decimal false 42 (-1)))
      with (others := [SInt 1; SInt 1]);
      vm_compute; reflexivity.
Defined.

Lemma one_line_per_message_witness :
  let r := on_message (user_data (stub_classifier (SFloat S754_nan))) (telemetry "95.0" "4.2") in
  let r' := on_message (user_data (stub_classifier (SInt 1))) (telemetry "95.0" "4.2") in
  r.2 = Raised ValueError /\ printed r.1 = []
  /\ r'.2 = Returned /\ length (printed r'.1) = 1%nat.
Proof.
  cbv zeta. split; [vm_compute; reflexivity|].
  split.
  { apply (proj1 (proj2 (one_line_per_message _ _)) ValueError). vm_compute. reflexivity. }
  split; [vm_compute; reflexivity|].
  apply (proj1 (one_line_per_message _ _)). vm_compute. reflexivity.
Defined.

Lemma on_message_raises_iff_witness :
  (on_message (user_data (stub_classifier SNone)) (telemetry "95.0" "4.2")).2
  = Raised TypeError.
Proof.
  apply (proj2 (on_message_raises_iff _ _ _)).
  exists (stub_classifier SNone),
    (JDict [("temperature"%string, JFloat (PyFloat.of_decimal false 950 (-1)));
            ("vibration"%string, JFloat (PyFloat.of_decimal false 42 (-1)))]).
  split; [vm_compute; reflexivity|]. split; [vm_compute; reflexivity|].
  right. right.
  exists (PyFloat.of_decimal false 950 (-1)), (PyFloat.of_decimal false 42 (-1)), SNone.
  repeat split; vm_compute; reflexivity.
Defined.

(** ** The session *)

(** X9: when the connection attempt raises, the client reports it and stops:
    it never enters the loop, never disconnects, never prints the farewell
    line, and, the model and the certificates having loaded, it returns
    normally, the report being the last thing it does. *)
Theorem failed_connection_ends_the_run :
  forall w exc,
    connect w ENDPOINT 8883 60 = Raise exc ->
    count_of is_loop (inference_main w).1 = 0%nat
    /\ count_of is_disconnect (inference_main w).1 = 0%nat
    /\ ((Say "Disconnected from AWS IoT Core.") ∉ (inference_main w).1)
    /\ (forall model,
          joblib_load w MODEL_PATH = Ok model ->
          tls_load w the_tls_config = Ok tt ->
          (inference_main w).2 = Returned
          /\ last (inference_main w).1 = Some (SayConnectFailed exc)).
Proof.
  intros w exc Hc. unfold inference_main, load_model, create_mqtt_client. rewrite Hc.
  destruct (joblib_load w MODEL_PATH) as [model|e].
  - destruct (tls_load w the_tls_config) as [[]|e].
    + split; [vm_compute; reflexivity|]. split; [vm_compute; reflexivity|].
      split. { cbn. intros Hin. repeat (apply elem_of_cons in Hin as [Hin|Hin];
                 [discriminate Hin|]). now apply elem_of_nil in Hin. }
      intros m _ _. split; reflexivity.
    + split; [vm_compute; reflexivity|]. split; [vm_compute; reflexivity|].
      split. { cbn. intros Hin. repeat (apply elem_of_cons in Hin as [Hin|Hin];
                 [discriminate Hin|]). now apply elem_of_nil in Hin. }
      intros m _ [=].
  - split; [vm_compute; reflexivity|]. split; [vm_compute; reflexivity|].
    split. { cbn. intros Hin. repeat (apply elem_of_cons in Hin as [Hin|Hin];
               [discriminate Hin|]). now apply elem_of_nil in Hin. }
    intros m [=].
Qed.

Lemma failed_connection_ends_the_run_witness :
  let w := scripted_world (VModel (stub_classifier (SInt 1)))
             (Raise (OtherError "ConnectionRefusedError")) 0
             [telemetry "95.0" "4.2"] (Ok tt) in
  count_of is_loop (inference_main w).1 = 0%nat
  /\ count_of is_disconnect (inference_main w).1 = 0%nat
  /\ ((Say "Disconnected from AWS IoT Core.") ∉ (inference_main w).1)
  /\ (forall model,
        joblib_load w MODEL_PATH = Ok model ->
        tls_load w the_tls_config = Ok tt ->
        (inference_main w).2 = Returned
        /\ last (inference_main w).1
           = Some (SayConnectFailed (OtherError "ConnectionRefusedError"))).
Proof. cbv zeta. apply failed_connection_ends_the_run. reflexivity. Defined.

(** X10: once connected, whatever ends the loop and whether or not
    [disconnect] itself raises, the client disconnects and prints the
    farewell line as its last two steps; a user interrupt is announced just
    before them and the run returns normally, while an exception of the loop
    is raised again after them. *)
Theorem loop_exit_always_disconnects :
  forall w model,
    joblib_load w MODEL_PATH = Ok model ->
    tls_load w the_tls_config = Ok tt ->
    connect w ENDPOINT 8883 60 = Ok tt ->
    exists client,
      (create_mqtt_client w model).2 = Ok client
      /\ (exists before,
            (inference_main w).1
            = before ++ (loop_forever w client).1
                ++ match (loop_forever w client).2 with
                   | LoopInterrupted =>
                       [Say (String.append newline "Interrupted by user, disconnecting...")]
                   | _ => []
                   end
                ++ [Disconnect; Say "Disconnected from AWS IoT Core."%string])
      /\ (inference_main w).2
         = match (loop_forever w client).2 with
           | LoopRaised e => Raised e
           | _ => Returned
           end
      /\ forall d, inference_main (set_disconnect w d) = inference_main w.
Proof.
  intros w model Hl Ht Hc.
  assert (Hind : forall d, inference_main (set_disconnect w d) = inference_main w).
  { intros d. unfold inference_main, load_model, create_mqtt_client. cbn [joblib_load
      tls_load connect loop_forever disconnect set_disconnect].
    rewrite Hl, Ht, Hc.
    match goal with |- context [loop_forever w ?c] =>
      destruct (loop_forever w c) as [during stop] end.
    now destruct d as [[]|?], (disconnect w) as [[]|?]. }
  unfold inference_main, load_model, create_mqtt_client in *. rewrite Hl, Ht, Hc in *.
  eexists. split; [reflexivity|]. cbn [snd].
  match goal with |- context [loop_forever w ?c] =>
    destruct (loop_forever w c) as [during stop] end.
  cbn [fst snd]. split; [|split; [now destruct stop | exact Hind]].
  match goal with
  | |- exists before, ?t0 ++ ?t1 ++ ?t2 ++ ?t3 ++ ?t4 ++ _ = _ =>
      exists (t0 ++ t1 ++ t2 ++ t3 ++ t4)
  end.
  rewrite <- !app_assoc. now destruct (disconnect w) as [[]|?].
Qed.

Lemma loop_exit_always_disconnects_witness :
  let model := VModel (stub_classifier (SInt 1)) in
  let w := scripted_world model (Ok tt) 0
             [telemetry "95.0" "4.2"; telemetry huge_integer "1.8"; telemetry "68.0" "1.8"]
             (Raise (OtherError "OSError")) in
  (inference_main w).2 = Raised OverflowError
  /\ last (inference_main w).1 = Some (Say "Disconnected from AWS IoT Core.").
Proof.
  cbv zeta.
  destruct (loop_exit_always_disconnects
              (scripted_world (VModel (stub_classifier (SInt 1))) (Ok tt) 0
                 [telemetry "95.0" "4.2"; telemetry huge_integer "1.8";
                  telemetry "68.0" "1.8"] (Raise (OtherError "OSError")))
              (VModel (stub_classifier (SInt 1))) eq_refl eq_refl eq_refl)
    as (client & Hclient & _ & Hout & _).
  injection Hclient as <-. split.
  - rewrite Hout. vm_compute. reflexivity.
  - vm_compute. reflexivity.
Defined.

(** X11: when the model does not load, or the certificates do not, the
    exception ends the program before any connection attempt: nothing is
    connected, looped on or disconnected. *)
Theorem startup_failure_is_fatal :
  forall w e,
    joblib_load w MODEL_PATH = Raise e
    \/ (exists model, joblib_load w MODEL_PATH = Ok model
                      /\ tls_load w the_tls_config = Raise e) ->
    (inference_main w).2 = Raised e
    /\ count_of is_connect (inference_main w).1 = 0%nat
    /\ count_of is_loop (inference_main w).1 = 0%nat
    /\ count_of is_disconnect (inference_main w).1 = 0%nat.
Proof.
  intros w e H. unfold inference_main, load_model, create_mqtt_client.
  destruct H as [-> | (model & -> & ->)]; repeat split; vm_compute; reflexivity.
Qed.

Lemma startup_failure_is_fatal_witness :
  let w := {| joblib_load := fun _ => Raise (OtherError "FileNotFoundError");
              tls_load := fun _ => Ok tt;
              connect := fun _ _ _ => Ok tt;
              loop_forever := scripted_loop 0 [];
              disconnect := Ok tt |} in
  (inference_main w).2 = Raised (OtherError "FileNotFoundError")
  /\ count_of is_connect (inference_main w).1 = 0%nat
  /\ count_of is_loop (inference_main w).1 = 0%nat
  /\ count_of is_disconnect (inference_main w).1 = 0%nat.
Proof. cbv zeta. apply startup_failure_is_fatal. left. reflexivity. Defined.

(** X12: the client that [create_mqtt_client] builds answers every message
    with the missing-model diagnostic exactly when the object it was given
    is [None]; it registers the two callbacks of the program and keeps the
    verification of the server's certificate on. *)
Theorem created_client_carries_the_model :
  forall w model client msg,
    (create_mqtt_client w model).2 = Ok client ->
    (on_message (client_userdata client) msg
     = ([Stdout (Log ModelNotFound)], Returned) <-> model = VNone)
    /\ client_on_connect client = Some on_connect
    /\ client_on_message client = Some on_message
    /\ client_tls_insecure client = false
    /\ (cert_required <$> client_tls client) = Some true.
Proof.
  intros w model client msg. unfold create_mqtt_client.
  destruct (tls_load w the_tls_config) as [[]|e]; [|discriminate].
  cbn [snd]. intros [= <-]. cbn.
  split; [|now repeat split].
  unfold on_message, userdata_get_model. rewrite lookup_singleton_eq.
  destruct model as [|m]; [now split|].
  split; [|discriminate].
  destruct (decode_payload msg) as [data|exc]; [|discriminate].
  destruct (extract_fields data) as [[t v]|exc].
  - cbv zeta. destruct (predict m (build_features t v) ≫= first) as [p|exc];
      [|discriminate].
    destruct (py_int p); discriminate.
  - destruct (is_key_type_value_error exc), (printable data); discriminate.
Qed.

Lemma created_client_carries_the_model_witness :
  exists client,
    (create_mqtt_client (scripted_world VNone (Ok tt) 0 [] (Ok tt)) VNone).2 = Ok client
    /\ on_message (client_userdata client) (telemetry "95.0" "4.2")
       = ([Stdout (Log ModelNotFound)], Returned).
Proof.
  eexists. split; [reflexivity|].
  apply (proj1 (created_client_carries_the_model
                  (scripted_world VNone (Ok tt) 0 [] (Ok tt)) VNone _
                  (telemetry "95.0" "4.2") eq_refl)).
  reflexivity.
Defined.

Lemma filter_handled (p : action -> bool) evs :
  (forall ev, p (Handled ev) = false) ->
  filter (fun a => p a = true) (map Handled evs) = [].
Proof.
  intros Hp. induction evs as [|ev evs IH]; [reflexivity|].
  cbn [map]. rewrite filter_cons_False; [exact IH|]. rewrite Hp. discriminate.
Qed.

(** X13: with a broker loop that acknowledges the connection with [rc] and
    then delivers an inbox, the only subscription of the whole session is the
    one of [on_connect], to the telemetry topic at QoS 1, made when [rc] is 0
    and not otherwise, whatever the inbox holds; the line that announces the
    subscription is printed in both cases, before the loop starts and before
    anything is subscribed. *)
Theorem subscription_follows_the_acknowledgement :
  forall model rc inbox d,
    filter (fun a => is_subscribe a = true)
      (inference_main (scripted_world model (Ok tt) rc inbox d)).1
    = (if rc =? 0 then [Subscribe TOPIC 1] else [])
    /\ exists before after,
         (inference_main (scripted_world model (Ok tt) rc inbox d)).1
         = before ++ [Say subscribed_line; Say "Press Ctrl+C to stop."%string;
                      LoopForever] ++ after
         /\ count_of is_subscribe before = 0%nat.
Proof.
  intros model rc inbox d.
  unfold inference_main, load_model, create_mqtt_client, scripted_world.
  cbn [joblib_load tls_load connect loop_forever disconnect].
  unfold scripted_loop. cbn [client_on_connect client_userdata].
  set (userdata := ({["model"%string := model]} : gmap string pyval)).
  assert (Hacks : filter (fun a => is_subscribe a = true) (on_connect userdata ∅ rc)
                  = (if rc =? 0 then [Subscribe TOPIC 1] else [])).
  { unfold on_connect. now destruct (rc =? 0). }
  destruct (dispatch userdata inbox) as [evs o].
  assert (Hshape : forall (stop : loop_end) (tr5 tr6 : list action),
            filter (fun a => is_subscribe a = true) tr5 = [] ->
            filter (fun a => is_subscribe a = true) tr6 = [] ->
            filter (fun a => is_subscribe a = true)
              ([Say "=== Real-Time Predictive Maintenance Inference ===";
                Say "Loading model and connecting to AWS IoT Core..."]%string
               ++ ([Say (String.append "Loading model from: " MODEL_PATH);
                    JoblibLoad MODEL_PATH] ++ [Say "Model loaded successfully."%string])
               ++ [TlsSet the_tls_config]
               ++ [Say (concat_str ["Connecting to "; ENDPOINT; " with client ID '";
                                    CLIENT_ID; "'..."]%string);
                   Connect ENDPOINT 8883 60]
               ++ [Say (concat_str ["Subscribed to topic '"; TOPIC;
                                    "'. Waiting for telemetry messages..."]%string);
                   Say "Press Ctrl+C to stop."%string; LoopForever]
               ++ (on_connect userdata ∅ rc ++ map Handled evs) ++ tr5 ++ tr6)
            = (if rc =? 0 then [Subscribe TOPIC 1] else [])).
  { intros stop tr5 tr6 H5 H6.
    rewrite !filter_app, Hacks, H5, H6, (filter_handled is_subscribe) by reflexivity.
    rewrite !app_nil_r. reflexivity. }
  split.
  - destruct o as [|e]; cbn [fst]; destruct d as [[]|?];
      now apply (Hshape LoopReturned).
  - eexists ([Say "=== Real-Time Predictive Maintenance Inference ===";
              Say "Loading model and connecting to AWS IoT Core..."]%string
             ++ ([Say (String.append "Loading model from: " MODEL_PATH);
                  JoblibLoad MODEL_PATH] ++ [Say "Model loaded successfully."%string])
             ++ [TlsSet the_tls_config]
             ++ [Say (concat_str ["Connecting to "; ENDPOINT; " with client ID '";
                                  CLIENT_ID; "'..."]%string);
                 Connect ENDPOINT 8883 60]).
    destruct o as [|e]; cbn [fst]; eexists;
      (split; [rewrite <- !app_assoc; reflexivity | vm_compute; reflexivity]).
Qed.

(** ** More about the generator *)

(** *** Which value lands in which cell *)

Section ArraysExact.
Import Generator.
Context {A : Type}.
Implicit Types (a : list A) (idx : list nat) (mask : list bool).

Lemma set_at_indices_keep a idx (vals : list A) a' :
  set_at_indices a idx vals = Ok a' ->
  forall i, i ∉ idx -> a' !! i = a !! i.
Proof.
  revert a vals. induction idx as [|i0 idx IH]; intros a vals Hrun i Hi.
  - destruct vals; [|discriminate]. now injection Hrun as <-.
  - destruct vals as [|v vals]; [discriminate|]. cbn [set_at_indices] in Hrun.
    destruct (i0 <? length a)%nat; [|discriminate].
    apply not_elem_of_cons in Hi as [Hne Hi].
    rewrite (IH _ _ Hrun _ Hi). now apply list_lookup_insert_ne.
Qed.

Lemma set_at_indices_exact a idx (vals : list A) a' :
  NoDup idx ->
  set_at_indices a idx vals = Ok a' ->
  forall k i, idx !! k = Some i -> a' !! i = vals !! k.
Proof.
  revert a vals. induction idx as [|i0 idx IH]; intros a vals Hnd Hrun k i Hk.
  - now rewrite lookup_nil in Hk.
  - destruct vals as [|v vals]; [discriminate|]. cbn [set_at_indices] in Hrun.
    destruct (Nat.ltb_spec i0 (length a)) as [Hlt|]; [|discriminate].
    apply NoDup_cons in Hnd as [Hfresh Hnd].
    destruct k as [|k].
    + injection Hk as <-. rewrite (set_at_indices_keep _ _ _ _ Hrun _ Hfresh).
      now apply list_lookup_insert_eq.
    + exact (IH _ _ Hnd Hrun k i Hk).
Qed.

Lemma mask_sum_cons b mask :
  mask_sum (b :: mask) = ((if b then 1 else 0) + mask_sum mask)%nat.
Proof.
  unfold mask_sum. destruct b.
  - now rewrite filter_cons_True.
  - now rewrite filter_cons_False.
Qed.

Lemma set_at_mask_exact a mask (vals : list A) a' :
  set_at_mask a mask vals = Ok a' ->
  forall i, mask !! i = Some true -> a' !! i = vals !! mask_sum (take i mask).
Proof.
  revert mask vals a'. induction a as [|x a IH]; intros mask vals a' Hrun i Hi.
  - destruct mask; [now rewrite lookup_nil in Hi | discriminate].
  - destruct mask as [|b mask]; [discriminate|]. cbn [set_at_mask] in Hrun.
    destruct b.
    + destruct vals as [|v vals]; [discriminate|].
      destruct (set_at_mask a mask vals) as [r|] eqn:Hr; [|discriminate].
      injection Hrun as <-. destruct i as [|i]; [reflexivity|].
      cbn [take]. rewrite mask_sum_cons. cbn. exact (IH _ _ _ Hr i Hi).
    + destruct (set_at_mask a mask vals) as [r|] eqn:Hr; [|discriminate].
      injection Hrun as <-. destruct i as [|i]; [discriminate|].
      cbn [take]. rewrite mask_sum_cons. cbn. exact (IH _ _ _ Hr i Hi).
Qed.
End ArraysExact.

Lemma mask_sum_eqb lab :
  Generator.mask_sum (map (fun l => l =? 0) lab)
  = length (filter (fun l => l = 0) lab).
Proof.
  induction lab as [|l lab IH]; [reflexivity|].
  cbn [map]. rewrite mask_sum_cons, IH. destruct (Z.eqb_spec l 0) as [Hl|Hl].
  - now rewrite filter_cons_True.
  - now rewrite filter_cons_False.
Qed.

Lemma zeros_plus_ones lab :
  Forall (fun l => l = 0 \/ l = 1) lab ->
  (length (filter (fun l => l = 0%Z) lab) + ones lab = length lab)%nat.
Proof.
  unfold ones. induction 1 as [|l lab [-> | ->] _ IH]; [reflexivity| |].
  - rewrite filter_cons_True, (filter_cons_False (fun l => l = 1)) by (reflexivity || discriminate).
    cbn. lia.
  - rewrite filter_cons_False, (filter_cons_True (fun l => l = 1)) by (reflexivity || discriminate).
    cbn. lia.
Qed.

(** A frame is its five columns. *)
Lemma rows_ext (rows rows' : list Generator.row) :
  map Generator.timestamp rows = map Generator.timestamp rows' ->
  map Generator.machineId rows = map Generator.machineId rows' ->
  map Generator.temperature rows = map Generator.temperature rows' ->
  map Generator.vibration rows = map Generator.vibration rows' ->
  map Generator.is_anomaly rows = map Generator.is_anomaly rows' ->
  rows = rows'.
Proof.
  revert rows'. induction rows as [|r rows IH]; intros [|r' rows']; try discriminate;
    [reflexivity|].
  cbn [map]. intros [= H1 H1'] [= H2 H2'] [= H3 H3'] [= H4 H4'] [= H5 H5'].
  f_equal; [|now apply IH]. destruct r, r'; cbn in *. congruence.
Qed.

Lemma within_finite lo hi x :
  PyFloat.is_finite lo = true -> PyFloat.is_finite hi = true ->
  Generator.within lo hi x = true -> PyFloat.is_finite x = true.
Proof.
  unfold Generator.within.
  destruct lo as [[]|[]| |[] ml el]; intros Hlo; try discriminate Hlo;
    destruct hi as [[]|[]| |[] mh eh]; intros Hhi; try discriminate Hhi;
    destruct x as [[]|[]| |[] mx ex]; intros Hx; try discriminate Hx; reflexivity.
Qed.

Lemma clip_min0_finite x :
  PyFloat.is_finite x = true -> PyFloat.is_finite (Generator.clip_min0 x) = true.
Proof. destruct x as [[]|[]| |[] m e]; intros H; try discriminate H; reflexivity. Qed.

Lemma n_rows_normal : Z.of_nat (Generator.n_rows - 500) = 9500.
Proof. vm_compute. reflexivity. Qed.

(** *** The columns of the frame, cell by cell *)

Section MainColumns.
Import Generator.
Context {S : Type} (rng : rng_ops S) (Hrng : rng_contract rng).
Variables (now : Z) (s0 : S) (garbage_t garbage_v : nat -> PyFloat.float).

Local Abbreviation sm := (draw_samples rng s0).

Lemma main_columns :
  exists rows lab temp vib,
    main rng now s0 garbage_t garbage_v = Ok rows
    /\ map timestamp rows
       = date_range (truncate_to_minute now - Z.of_nat (n_rows - 1) * minute) n_rows
    /\ Forall (fun r => machineId r = machine_id) rows
    /\ map is_anomaly rows = lab
    /\ map temperature rows = temp
    /\ map vibration rows = map clip_min0 vib
    /\ set_at_indices_const (np_zeros n_rows) (anomaly_idx sm) 1 = Ok lab
    /\ anomaly_idx sm = first_draw rng s0
    /\ (length lab = n_rows /\ length temp = n_rows /\ length vib = n_rows)
    /\ mask_sum (map (fun l => l =? 0) lab) = (n_rows - 500)%nat
    /\ (length (normal_t sm) = (n_rows - 500)%nat
        /\ length (normal_v sm) = (n_rows - 500)%nat
        /\ Forall (fun x => PyFloat.is_finite x = true) (normal_t sm)
        /\ Forall (fun x => PyFloat.is_finite x = true) (normal_v sm))
    /\ (length (spike_t sm) = 500%nat /\ length (spike_v sm) = 500%nat
        /\ Forall (fun x => within lit_80_0 lit_100_0 x = true) (spike_t sm)
        /\ Forall (fun x => within lit_3_0 lit_5_0 x = true) (spike_v sm))
    /\ (forall k i, anomaly_idx sm !! k = Some i ->
          lab !! i = Some 1
          /\ temp !! i = spike_t sm !! k /\ vib !! i = spike_v sm !! k)
    /\ (forall i, (i < n_rows)%nat -> i ∉ anomaly_idx sm ->
          lab !! i = Some 0
          /\ temp !! i = normal_t sm !! mask_sum (take i (map (fun l => l =? 0) lab))
          /\ vib !! i = normal_v sm !! mask_sum (take i (map (fun l => l =? 0) lab))).
Proof.
  destruct literal_bounds as (Hb1 & Hb2 & _).
  destruct (choice_ok rng Hrng n_rows 500 s0 n_rows_bounds) as (Hlen & Hnd & Hrange).
  unfold main, draw_samples, first_draw. rewrite anomaly_count_500.
  cbn [mbind result_bind].
  destruct (choice rng n_rows 500 s0) as [idx s1]. cbn [fst] in *.
  destruct (set_at_indices_const_ok (np_zeros n_rows) idx 1)
    as (lab & Hlab & Hlablen & Hlab1 & Hlab0).
  { unfold np_zeros. now rewrite length_replicate. }
  unfold np_zeros in Hlablen. rewrite length_replicate in Hlablen.
  rewrite Hlab. cbn [mbind result_bind].
  assert (Hzero : forall i, (i < n_rows)%nat -> i ∉ idx -> lab !! i = Some 0).
  { intros i Hi Hni. rewrite (Hlab0 _ Hni). unfold np_zeros.
    now apply lookup_replicate_2. }
  assert (Hones : ones lab = 500%nat).
  { rewrite (ones_set_at_indices_const _ _ _ Hnd) with (2 := Hlab).
    - now rewrite ones_zeros, Hlen.
    - intros i Hi. exists 0. split; [|discriminate].
      unfold np_zeros. apply lookup_replicate_2.
      now apply (proj1 (Forall_forall _ _) Hrange). }
  assert (Hbin : Forall (fun l => l = 0 \/ l = 1) lab).
  { apply Forall_lookup. intros i l Hl.
    assert (Hi : (i < n_rows)%nat) by (rewrite <- Hlablen; eapply lookup_lt_Some; eauto).
    destruct (decide (i ∈ idx)) as [Hin|Hin].
    - rewrite (Hlab1 _ Hin) in Hl. injection Hl as <-. now right.
    - rewrite (Hzero _ Hi Hin) in Hl. injection Hl as <-. now left. }
  assert (Hms : mask_sum (map (fun l => l =? 0) lab) = (n_rows - 500)%nat).
  { rewrite mask_sum_eqb. pose proof (zeros_plus_ones lab Hbin). lia. }
  cbv zeta. rewrite Hms.
  set (mask := map (fun l => l =? 0) lab) in *.
  assert (Hmasklen : length mask = n_rows) by (unfold mask; now rewrite length_map).
  assert (Hmask0 : forall i, (i < n_rows)%nat -> i ∉ idx -> mask !! i = Some true).
  { intros i Hi Hni. unfold mask. rewrite list_lookup_fmap, (Hzero _ Hi Hni). reflexivity. }
  destruct (normal rng lit_68_0 lit_3_0 (n_rows - 500) s1) as [nt s2] eqn:Hnt.
  pose proof (normal_ok rng Hrng lit_68_0 lit_3_0 (n_rows - 500) s1) as [Hntlen Hntfin].
  rewrite Hnt in Hntlen, Hntfin. cbn [fst] in Hntlen, Hntfin.
  destruct (set_at_mask_ok (np_empty garbage_t n_rows) mask nt)
    as (temp1 & Ht1 & Ht1len & _ & _).
  { unfold np_empty. now rewrite length_map, length_seq. }
  { now rewrite Hntlen, Hms. }
  rewrite Ht1. cbn [mbind result_bind].
  destruct (normal rng lit_1_8 lit_0_3 (n_rows - 500) s2) as [nv s3] eqn:Hnv.
  pose proof (normal_ok rng Hrng lit_1_8 lit_0_3 (n_rows - 500) s2) as [Hnvlen Hnvfin].
  rewrite Hnv in Hnvlen, Hnvfin. cbn [fst] in Hnvlen, Hnvfin.
  destruct (set_at_mask_ok (np_empty garbage_v n_rows) mask nv)
    as (vib1 & Hv1 & Hv1len & _ & _).
  { unfold np_empty. now rewrite length_map, length_seq. }
  { now rewrite Hnvlen, Hms. }
  rewrite Hv1. cbn [mbind result_bind].
  unfold np_empty in Ht1len, Hv1len. rewrite length_map, length_seq in Ht1len, Hv1len.
  destruct (uniform rng lit_80_0 lit_100_0 500 s3) as [ut s4] eqn:Hut.
  pose proof (uniform_ok rng Hrng lit_80_0 lit_100_0 500 s3 Hb1) as [Hutlen Hutin].
  rewrite Hut in Hutlen, Hutin. cbn [fst] in Hutlen, Hutin.
  destruct (set_at_indices_ok temp1 idx ut) as (temp2 & Ht2 & Ht2len & _ & _).
  { now rewrite Ht1len. }
  { now rewrite Hutlen, Hlen. }
  rewrite Ht2. cbn [mbind result_bind].
  destruct (uniform rng lit_3_0 lit_5_0 500 s4) as [uv s5] eqn:Huv.
  pose proof (uniform_ok rng Hrng lit_3_0 lit_5_0 500 s4 Hb2) as [Huvlen Huvin].
  rewrite Huv in Huvlen, Huvin. cbn [fst] in Huvlen, Huvin.
  destruct (set_at_indices_ok vib1 idx uv) as (vib2 & Hv2 & Hv2len & _ & _).
  { now rewrite Hv1len. }
  { now rewrite Huvlen, Hlen. }
  rewrite Hv2. cbn [mbind result_bind].
  destruct (make_frame_ok
              (date_range (truncate_to_minute now - Z.of_nat (n_rows - 1) * minute) n_rows)
              machine_id temp2 (map clip_min0 vib2) lab)
    as (rows & Hrows & Hts & Htemp & Hvib & Hl & Hmid).
  { now rewrite date_range_length, Ht2len. }
  { now rewrite length_map, date_range_length, Hv2len. }
  { now rewrite date_range_length. }
  cbn [anomaly_idx normal_t normal_v spike_t spike_v].
  exists rows, lab, temp2, vib2.
  split; [exact Hrows|]. split; [exact Hts|]. split; [exact Hmid|].
  split; [exact Hl|]. split; [exact Htemp|]. split; [exact Hvib|].
  split; [exact Hlab|]. split; [reflexivity|].
  split. { repeat split; congruence. }
  split; [exact Hms|].
  split. { repeat split; assumption. }
  split. { repeat split; assumption. }
  split.
  - intros k i Hk. split; [|split].
    + apply Hlab1. eapply list_elem_of_lookup_2; eauto.
    + exact (set_at_indices_exact _ _ _ _ Hnd Ht2 k i Hk).
    + exact (set_at_indices_exact _ _ _ _ Hnd Hv2 k i Hk).
  - intros i Hi Hni. split; [now apply Hzero|]. split.
    + rewrite (set_at_indices_keep _ _ _ _ Ht2 _ Hni).
      exact (set_at_mask_exact _ _ _ _ Ht1 i (Hmask0 _ Hi Hni)).
    + rewrite (set_at_indices_keep _ _ _ _ Hv2 _ Hni).
      exact (set_at_mask_exact _ _ _ _ Hv1 i (Hmask0 _ Hi Hni)).
Qed.
End MainColumns.

Lemma map_const {A B : Type} (f : A -> B) (c : B) (l : list A) :
  Forall (fun x => f x = c) l -> map f l = replicate (length l) c.
Proof. induction 1 as [|x l Hx _ IH]; [reflexivity|]. cbn. now rewrite Hx, IH. Qed.

Lemma rank_of_row (rows : list Generator.row) i :
  Generator.mask_sum (take i (map (fun l => l =? 0) (map Generator.is_anomaly rows)))
  = length (labelled 0 (take i rows)).
Proof.
  rewrite labelled_length, <- !fmap_take. apply mask_sum_eqb.
Qed.

Lemma literals_finite :
  PyFloat.is_finite Generator.lit_80_0 = true
  /\ PyFloat.is_finite Generator.lit_100_0 = true
  /\ PyFloat.is_finite Generator.lit_3_0 = true
  /\ PyFloat.is_finite Generator.lit_5_0 = true.
Proof. repeat split; vm_compute; reflexivity. Qed.

Lemma n_rows_value :
  Z.of_nat Generator.n_rows = 10000 /\ Z.of_nat (Generator.n_rows - 1) = 9999.
Proof. split; vm_compute; reflexivity. Qed.

(** *** More claims about the generator *)

Section GeneratorExtras.
Import Generator.
Context {S : Type} (rng : rng_ops S) (Hrng : rng_contract rng).
Variables (now : Z) (s0 : S).

Local Abbreviation sm := (draw_samples rng s0).

(** X14: the spikes go to the drawn indices in the order of the draw: the
    row at the k-th drawn index is labelled 1, its temperature is the k-th
    value of the first uniform sample and its vibration the k-th value of
    the second, which the clamp leaves as it is. *)
Theorem spikes_follow_the_draw :
  forall garbage_t garbage_v,
  exists rows,
    main rng now s0 garbage_t garbage_v = Ok rows
    /\ forall k i, first_draw rng s0 !! k = Some i ->
         exists r, rows !! i = Some r
           /\ is_anomaly r = 1
           /\ spike_t sm !! k = Some (temperature r)
           /\ spike_v sm !! k = Some (vibration r).
Proof.
  intros garbage_t garbage_v.
  destruct (main_columns rng Hrng now s0 garbage_t garbage_v)
    as (rows & lab & temp & vib & Hrun & _ & _ & Hl & Ht & Hv & _ & Hidx
        & (Hlablen & _ & _) & _ & _ & (_ & _ & _ & Hin35) & Hspike & _).
  destruct literal_bounds as (_ & _ & H03).
  exists rows. split; [exact Hrun|]. intros k i Hk. rewrite <- Hidx in Hk.
  destruct (Hspike k i Hk) as (Hli & Hti & Hvi).
  assert (Hi : (i < length rows)%nat).
  { rewrite <- (length_map is_anomaly), Hl. eapply lookup_lt_Some; eauto. }
  destruct (lookup_lt_is_Some_2 rows i Hi) as [r Hr].
  exists r. split; [exact Hr|].
  assert (Hlr : map is_anomaly rows !! i = Some (is_anomaly r))
    by (now rewrite list_lookup_fmap, Hr).
  assert (Htr : map temperature rows !! i = Some (temperature r))
    by (now rewrite list_lookup_fmap, Hr).
  assert (Hvr : map vibration rows !! i = Some (vibration r))
    by (now rewrite list_lookup_fmap, Hr).
  rewrite Hl, Hli in Hlr. rewrite Ht, Hti in Htr.
  rewrite Hv, list_lookup_fmap, Hvi in Hvr.
  split; [now injection Hlr|]. split; [exact Htr|].
  destruct (spike_v sm !! k) as [x|] eqn:Hx; [|discriminate].
  injection Hvr as <-. f_equal.
  assert (Hw : within lit_3_0 lit_5_0 x = true).
  { apply (proj1 (Forall_forall _ _) Hin35). eapply list_elem_of_lookup_2; eauto. }
  unfold within in Hw. apply andb_prop in Hw as [Hlo _].
  symmetry. now apply (above_nonneg_not_clipped lit_3_0).
Qed.

(** X15: the normal readings fill the rows labelled 0 in row order: there
    are 9500 such rows, as many as each normal sample holds, and the j-th of
    them, counting from the top, has the j-th value of the temperature
    sample and the clamp of the j-th value of the vibration sample. *)
Theorem normals_follow_the_row_order :
  forall garbage_t garbage_v,
  exists rows,
    main rng now s0 garbage_t garbage_v = Ok rows
    /\ Z.of_nat (length (labelled 0 rows)) = 9500
    /\ length (normal_t sm) = length (labelled 0 rows)
    /\ length (normal_v sm) = length (labelled 0 rows)
    /\ forall i r, rows !! i = Some r -> is_anomaly r = 0 ->
         normal_t sm !! length (labelled 0 (take i rows)) = Some (temperature r)
         /\ clip_min0 <$> normal_v sm !! length (labelled 0 (take i rows))
            = Some (vibration r).
Proof.
  intros garbage_t garbage_v.
  destruct (main_columns rng Hrng now s0 garbage_t garbage_v)
    as (rows & lab & temp & vib & Hrun & _ & _ & Hl & Ht & Hv & _ & _
        & (Hlablen & _ & _) & Hms & (Hntlen & Hnvlen & _ & _) & _ & Hspike & Hcalm).
  assert (Hcount : length (labelled 0 rows) = (n_rows - 500)%nat).
  { rewrite labelled_length, Hl, <- mask_sum_eqb. exact Hms. }
  exists rows. split; [exact Hrun|].
  split; [rewrite Hcount; exact n_rows_normal|].
  split; [congruence|]. split; [congruence|].
  intros i r Hr Hlab.
  assert (Hlr : map is_anomaly rows !! i = Some (is_anomaly r))
    by (now rewrite list_lookup_fmap, Hr).
  assert (Htr : map temperature rows !! i = Some (temperature r))
    by (now rewrite list_lookup_fmap, Hr).
  assert (Hvr : map vibration rows !! i = Some (vibration r))
    by (now rewrite list_lookup_fmap, Hr).
  assert (Hi : (i < n_rows)%nat).
  { rewrite <- Hlablen, <- Hl, length_map. eapply lookup_lt_Some; eauto. }
  assert (Hni : i ∉ anomaly_idx sm).
  { intros Hin. apply list_elem_of_lookup_1 in Hin as [k Hk].
    destruct (Hspike k i Hk) as (Hli & _). rewrite Hl, Hli, Hlab in Hlr. discriminate. }
  destruct (Hcalm i Hi Hni) as (_ & Hti & Hvi).
  rewrite <- Hl, rank_of_row in Hti, Hvi.
  rewrite Ht, Hti in Htr. rewrite Hv, list_lookup_fmap, Hvi in Hvr.
  split; assumption.
Qed.

(** X16: what the uninitialised arrays held plays no part: every cell of
    them is overwritten, and the frame is the same whatever they held. *)
Theorem uninitialised_cells_never_reach_the_frame :
  forall garbage_t garbage_v garbage_t' garbage_v',
    main rng now s0 garbage_t garbage_v = main rng now s0 garbage_t' garbage_v'
    /\ exists rows, main rng now s0 garbage_t garbage_v = Ok rows.
Proof.
  intros g1 g2 g1' g2'.
  destruct (main_columns rng Hrng now s0 g1 g2)
    as (rows & lab & temp & vib & Hrun & Hts & Hmid & Hl & Ht & Hv & Hlab & _
        & (Hlablen & Htlen & Hvlen) & _ & _ & _ & Hspike & Hcalm).
  destruct (main_columns rng Hrng now s0 g1' g2')
    as (rows' & lab' & temp' & vib' & Hrun' & Hts' & Hmid' & Hl' & Ht' & Hv' & Hlab' & _
        & (_ & Htlen' & Hvlen') & _ & _ & _ & Hspike' & Hcalm').
  assert (lab' = lab) as -> by congruence.
  assert (Hcells : temp = temp' /\ vib = vib').
  { split; apply list_eq; intros i;
      (destruct (Nat.lt_ge_cases i n_rows) as [Hi|Hi];
       [ destruct (decide (i ∈ anomaly_idx sm)) as [Hin|Hin];
         [ apply list_elem_of_lookup_1 in Hin as [k Hk];
           destruct (Hspike k i Hk) as (_ & H1 & H2);
           destruct (Hspike' k i Hk) as (_ & H1' & H2'); congruence
         | destruct (Hcalm i Hi Hin) as (_ & H1 & H2);
           destruct (Hcalm' i Hi Hin) as (_ & H1' & H2'); congruence ]
       | rewrite !lookup_ge_None_2 by lia; reflexivity ]). }
  destruct Hcells as [<- <-].
  split; [|now exists rows]. rewrite Hrun, Hrun'. f_equal.
  assert (Hlen : length rows = length rows').
  { rewrite <- (length_map timestamp rows), <- (length_map timestamp rows'). congruence. }
  apply rows_ext; try congruence.
  rewrite (map_const _ _ _ Hmid), (map_const _ _ _ Hmid'). now rewrite Hlen.
Qed.

(** X17: every temperature and every vibration of the frame is a finite
    number, never a NaN or an infinity, even when the uninitialised arrays
    held such values. *)
Theorem readings_are_finite :
  forall garbage_t garbage_v,
  exists rows,
    main rng now s0 garbage_t garbage_v = Ok rows
    /\ forall r, r ∈ rows ->
         PyFloat.is_finite (temperature r) = true
         /\ PyFloat.is_finite (vibration r) = true.
Proof.
  intros garbage_t garbage_v.
  destruct (main_columns rng Hrng now s0 garbage_t garbage_v)
    as (rows & lab & temp & vib & Hrun & _ & _ & Hl & Ht & Hv & _ & _
        & (Hlablen & _ & _) & _ & (_ & _ & Hntfin & Hnvfin)
        & (_ & _ & Hutin & Huvin) & Hspike & Hcalm).
  destruct literals_finite as (F80 & F100 & F3 & F5).
  exists rows. split; [exact Hrun|]. intros r Hr.
  apply list_elem_of_lookup in Hr as [i Hr].
  assert (Htr : map temperature rows !! i = Some (temperature r))
    by (now rewrite list_lookup_fmap, Hr).
  assert (Hvr : map vibration rows !! i = Some (vibration r))
    by (now rewrite list_lookup_fmap, Hr).
  assert (Hi : (i < n_rows)%nat).
  { rewrite <- Hlablen, <- Hl, length_map. eapply lookup_lt_Some; eauto. }
  rewrite Ht in Htr. rewrite Hv, list_lookup_fmap in Hvr.
  destruct (decide (i ∈ anomaly_idx sm)) as [Hin|Hin].
  - apply list_elem_of_lookup_1 in Hin as [k Hk].
    destruct (Hspike k i Hk) as (_ & H1 & H2). rewrite H1 in Htr. rewrite H2 in Hvr.
    destruct (spike_v sm !! k) as [x|] eqn:Hx; [|discriminate]. injection Hvr as <-.
    split.
    + apply (within_finite lit_80_0 lit_100_0 _ F80 F100).
      apply (proj1 (Forall_forall _ _) Hutin). eapply list_elem_of_lookup_2; eauto.
    + apply clip_min0_finite, (within_finite lit_3_0 lit_5_0 _ F3 F5).
      apply (proj1 (Forall_forall _ _) Huvin). eapply list_elem_of_lookup_2; eauto.
  - destruct (Hcalm i Hi Hin) as (_ & H1 & H2). rewrite H1 in Htr. rewrite H2 in Hvr.
    match type of Hvr with clip_min0 <$> ?o = _ =>
      destruct o as [x|] eqn:Hx; [|discriminate] end.
    injection Hvr as <-. split.
    + apply (proj1 (Forall_forall _ _) Hntfin). eapply list_elem_of_lookup_2; eauto.
    + apply clip_min0_finite.
      apply (proj1 (Forall_forall _ _) Hnvfin). eapply list_elem_of_lookup_2; eauto.
Qed.

(** X18: every row carries the machine identifier of the program, and its
    timestamp is a whole minute, not after the clock reading, and less than
    10000 minutes before it. *)
Theorem rows_are_stamped :
  forall garbage_t garbage_v,
  exists rows,
    main rng now s0 garbage_t garbage_v = Ok rows
    /\ forall r, r ∈ rows ->
         machineId r = "NC_Machine_AC"%string
         /\ timestamp r mod minute = 0
         /\ timestamp r <= now
         /\ now - timestamp r < 10000 * minute.
Proof.
  intros garbage_t garbage_v.
  destruct (main_columns rng Hrng now s0 garbage_t garbage_v)
    as (rows & lab & temp & vib & Hrun & Hts & Hmid & Hl & _ & _ & _ & _
        & (Hlablen & _ & _) & _).
  exists rows. split; [exact Hrun|]. intros r Hr.
  split; [exact (proj1 (Forall_forall _ _) Hmid r Hr)|].
  apply list_elem_of_lookup in Hr as [i Hr].
  assert (Hi : (i < n_rows)%nat).
  { rewrite <- Hlablen, <- Hl, length_map. eapply lookup_lt_Some; eauto. }
  assert (Htr : map timestamp rows !! i = Some (timestamp r))
    by (now rewrite list_lookup_fmap, Hr).
  rewrite Hts, (date_range_lookup _ _ _ Hi) in Htr.
  assert (E : timestamp r
              = truncate_to_minute now - Z.of_nat (n_rows - 1) * minute
                + Z.of_nat i * minute) by congruence.
  rewrite E. clear E Htr.
  destruct n_rows_value as [Hn Hn1].
  assert (Hiz : 0 <= Z.of_nat i < 10000) by lia.
  rewrite Hn1. unfold truncate_to_minute, minute.
  pose proof (Z.mod_pos_bound now 60000000 ltac:(lia)) as Hm.
  split; [|lia].
  replace (now - now mod 60000000 - 9999 * 60000000 + Z.of_nat i * 60000000)
    with (now - now mod 60000000 + (Z.of_nat i - 9999) * 60000000) by lia.
  rewrite Z_mod_plus_full, Zminus_mod, Zmod_mod, Z.sub_diag. reflexivity.
Qed.
End GeneratorExtras.

Lemma spikes_follow_the_draw_witness :
  Generator.rng_contract fixed_rng
  /\ exists rows,
       Generator.main fixed_rng 1700000012345678 tt nan_garbage nan_garbage = Ok rows
       /\ forall k i, first_draw fixed_rng tt !! k = Some i ->
            exists r, rows !! i = Some r
              /\ Generator.is_anomaly r = 1
              /\ spike_t (draw_samples fixed_rng tt) !! k = Some (Generator.temperature r)
              /\ spike_v (draw_samples fixed_rng tt) !! k = Some (Generator.vibration r).
Proof.
  split; [exact fixed_rng_contract|].
  exact (spikes_follow_the_draw fixed_rng fixed_rng_contract 1700000012345678 tt
           nan_garbage nan_garbage).
Defined.

Lemma normals_follow_the_row_order_witness :
  Generator.rng_contract fixed_rng
  /\ exists rows,
       Generator.main fixed_rng 1700000012345678 tt nan_garbage nan_garbage = Ok rows
       /\ Z.of_nat (length (labelled 0 rows)) = 9500
       /\ length (normal_t (draw_samples fixed_rng tt)) = length (labelled 0 rows)
       /\ length (normal_v (draw_samples fixed_rng tt)) = length (labelled 0 rows)
       /\ forall i r, rows !! i = Some r -> Generator.is_anomaly r = 0 ->
            normal_t (draw_samples fixed_rng tt) !! length (labelled 0 (take i rows))
            = Some (Generator.temperature r)
            /\ Generator.clip_min0
                 <$> normal_v (draw_samples fixed_rng tt) !! length (labelled 0 (take i rows))
               = Some (Generator.vibration r).
Proof.
  split; [exact fixed_rng_contract|].
  exact (normals_follow_the_row_order fixed_rng fixed_rng_contract 1700000012345678 tt
           nan_garbage nan_garbage).
Defined.

Lemma uninitialised_cells_never_reach_the_frame_witness :
  Generator.rng_contract fixed_rng
  /\ Generator.main fixed_rng 1700000012345678 tt nan_garbage nan_garbage
     = Generator.main fixed_rng 1700000012345678 tt
         (fun i => PyFloat.round_of_Z (Z.of_nat i)) (fun _ => S754_infinity true)
  /\ exists rows,
       Generator.main fixed_rng 1700000012345678 tt nan_garbage nan_garbage = Ok rows.
Proof.
  split; [exact fixed_rng_contract|].
  exact (uninitialised_cells_never_reach_the_frame fixed_rng fixed_rng_contract
           1700000012345678 tt nan_garbage nan_garbage
           (fun i => PyFloat.round_of_Z (Z.of_nat i)) (fun _ => S754_infinity true)).
Defined.

Lemma readings_are_finite_witness :
  Generator.rng_contract fixed_rng
  /\ exists rows,
       Generator.main fixed_rng 1700000012345678 tt nan_garbage nan_garbage = Ok rows
       /\ forall r, r ∈ rows ->
            PyFloat.is_finite (Generator.temperature r) = true
            /\ PyFloat.is_finite (Generator.vibration r) = true.
Proof.
  split; [exact fixed_rng_contract|].
  exact (readings_are_finite fixed_rng fixed_rng_contract 1700000012345678 tt
           nan_garbage nan_garbage).
Defined.

Lemma rows_are_stamped_witness :
  Generator.rng_contract fixed_rng
  /\ exists rows,
       Generator.main fixed_rng 1700000012345678 tt nan_garbage nan_garbage = Ok rows
       /\ forall r, r ∈ rows ->
            Generator.machineId r = "NC_Machine_AC"%string
            /\ Generator.timestamp r mod Generator.minute = 0
            /\ Generator.timestamp r <= 1700000012345678
            /\ 1700000012345678 - Generator.timestamp r < 10000 * Generator.minute.
Proof.
  split; [exact fixed_rng_contract|].
  exact (rows_are_stamped fixed_rng fixed_rng_contract 1700000012345678 tt
           nan_garbage nan_garbage).
Defined.
